(** * HPKV REST client: a shallow embedding of the three Python clients

    The repository ships the same client three times:
    - [Sdk]    : src/sdk/python/src/hpkv_rest_client/hpkv_client.py
                 (blocking, per-status exception classes, response validation);
    - [Plain]  : src/python/hpkv_client.py
                 (blocking, a single exception class, no response validation);
    - [Async]  : src/python/async_hpkv_client.py
                 (non-blocking, a single exception class, no response
                 validation, a lazily created transport session).

    Python values are modelled by their JSON-shaped fragment, Python strings
    by Rocq strings whose characters are read as the code points U+0000 to
    U+00FF, exceptions by an explicit outcome type, and the instance together
    with the network by explicit state passing. *)

From stdpp Require Import base option list gmap strings.
From Stdlib Require Import ZArith NArith Ascii String DecimalString.

Open Scope string_scope.
Open Scope Z_scope.

(** ** Python values *)

(** The values that [json.loads] produces and [json.dumps] accepts; numbers
    are restricted to integers.  [PNone] is Python's [None] (JSON null), and a
    [PDict] keeps the insertion order of its items, as a Python dict does. *)
#[warnings="-register-all"] Inductive pyval : Type :=
| PNone
| PBool (b : bool)
| PInt (n : Z)
| PStr (s : string)
| PList (items : list pyval)
| PDict (items : list (string * pyval)).

(** [bool(v)]. *)
Definition py_truthy (v : pyval) : bool :=
  match v with
  | PNone => false
  | PBool b => b
  | PInt n => negb (n =? 0)
  | PStr s => negb (String.eqb s EmptyString)
  | PList l => match l with [] => false | _ => true end
  | PDict d => match d with [] => false | _ => true end
  end.

(** [isinstance(v, dict)] and [isinstance(v, str)]. *)
Definition is_dict (v : pyval) : bool :=
  match v with PDict _ => true | _ => false end.

Definition is_str (v : pyval) : bool :=
  match v with PStr _ => true | _ => false end.

(** ** Exceptions and outcomes *)

(** The exception classes of the three files.  [HPKVException] is the base
    class; the seven subclasses exist only in the SDK file. *)
Inductive HPKVClass : Set :=
| HPKVException
| HPKVBadRequestError
| HPKVUnauthorizedError
| HPKVForbiddenError
| HPKVNotFoundError
| HPKVConflictError
| HPKVRateLimitError
| HPKVInternalError.

(** [HPKVError cls message status_code response_data] is an instance of
    [cls] built by [cls(message, status_code, response_data)]; the other
    constructors are the built-in exceptions the code can meet, the
    exceptions of the transport libraries, and [aiohttp.ContentTypeError]. *)
Inductive Exn : Type :=
| HPKVError (cls : HPKVClass) (message : pyval) (status_code : Z)
            (response_data : pyval)
| ValueError (message : string)
| TypeError
| KeyError (key : string)
| JSONDecodeError
| RuntimeError (message : string)
| TransportError (name : string)
| ContentTypeError.

Inductive Outcome (A : Type) : Type :=
| Return (a : A)
| Raise (e : Exn).
Arguments Return {A} a.
Arguments Raise {A} e.

(** ** Strings *)

(** The double-quote character and the backslash. *)
Definition dquote : string := String "034"%char EmptyString.
Definition backslash : string := String "092"%char EmptyString.

(** [str(n)] for an integer. *)
Definition py_str_int (n : Z) : string := NilZero.string_of_int (Z.to_int n).

(** [needle in haystack] for two strings: substring test. *)
Fixpoint substringb (needle haystack : string) : bool :=
  String.prefix needle haystack ||
  match haystack with
  | EmptyString => false
  | String _ rest => substringb needle rest
  end.

Definition hex_digit (upper : bool) (n : N) : ascii :=
  if (n <? 10)%N then ascii_of_N (48 + n)
  else ascii_of_N ((if upper then 55 else 87) + n).

(** *** urllib.parse.quote *)

(** [_ALWAYS_SAFE]: letters, digits and [_.-~]. *)
Definition always_safe (b : N) : bool :=
  ((65 <=? b)%N && (b <=? 90)%N) || ((97 <=? b)%N && (b <=? 122)%N)
  || ((48 <=? b)%N && (b <=? 57)%N)
  || (b =? 95)%N || (b =? 46)%N || (b =? 45)%N || (b =? 126)%N.

(** [str.encode('utf-8')] on one code point below U+0100. *)
Definition utf8_encode (c : ascii) : list N :=
  let n := N_of_ascii c in
  if (n <? 128)%N then [n] else [(192 + n / 64)%N; (128 + n mod 64)%N].

(** One byte of [quote_from_bytes] with the default [safe='/']. *)
Definition quote_byte (b : N) : string :=
  if always_safe b || (b =? 47)%N then String (ascii_of_N b) EmptyString
  else String "%" (String (hex_digit true (b / 16))
                          (String (hex_digit true (b mod 16)) EmptyString)).

(** [urllib.parse.quote(s)]. *)
Fixpoint quote (s : string) : string :=
  match s with
  | EmptyString => EmptyString
  | String c rest =>
      fold_right (fun b acc => quote_byte b ++ acc) EmptyString (utf8_encode c)
      ++ quote rest
  end.

(** *** json.dumps *)

(** One character of [py_encode_basestring_ascii]. *)
Definition escape_char (c : ascii) : string :=
  let n := N_of_ascii c in
  if (n =? 34)%N then backslash ++ dquote
  else if (n =? 92)%N then backslash ++ backslash
  else if (n =? 10)%N then backslash ++ "n"
  else if (n =? 13)%N then backslash ++ "r"
  else if (n =? 9)%N then backslash ++ "t"
  else if (n =? 8)%N then backslash ++ "b"
  else if (n =? 12)%N then backslash ++ "f"
  else if (32 <=? n)%N && (n <=? 126)%N then String c EmptyString
  else backslash ++ "u00"
       ++ String (hex_digit false (n / 16))
                 (String (hex_digit false (n mod 16)) EmptyString).

Fixpoint escape_string (s : string) : string :=
  match s with
  | EmptyString => EmptyString
  | String c rest => escape_char c ++ escape_string rest
  end.

Definition encode_basestring (s : string) : string :=
  dquote ++ escape_string s ++ dquote.

(** [json.dumps(v)] with the default separators [", "] and [": "]. *)
Fixpoint json_dumps (v : pyval) : string :=
  match v with
  | PNone => "null"
  | PBool true => "true"
  | PBool false => "false"
  | PInt n => py_str_int n
  | PStr s => encode_basestring s
  | PList l =>
      "[" ++ (fix items (l : list pyval) : string :=
                match l with
                | [] => EmptyString
                | [x] => json_dumps x
                | x :: r => json_dumps x ++ ", " ++ items r
                end) l ++ "]"
  | PDict d =>
      "{" ++ (fix items (d : list (string * pyval)) : string :=
                match d with
                | [] => EmptyString
                | [(k, x)] => encode_basestring k ++ ": " ++ json_dumps x
                | (k, x) :: r =>
                    encode_basestring k ++ ": " ++ json_dumps x ++ ", "
                    ++ items r
                end) d ++ "}"
  end.

(** *** Dictionary and container operations *)

(** [key in d] and [d[key]] on the items of a dict. *)
Definition dict_has (key : string) (d : list (string * pyval)) : bool :=
  existsb (fun kv => String.eqb (fst kv) key) d.

Fixpoint dict_get (key : string) (d : list (string * pyval)) : option pyval :=
  match d with
  | [] => None
  | (k, v) :: rest => if String.eqb k key then Some v else dict_get key rest
  end.

(** [key in v] for a string [key] and an arbitrary value [v]: key membership
    for a dict, element membership for a list, substring test for a string,
    and [TypeError] for the values that are not containers. *)
Definition py_in (key : string) (v : pyval) : Outcome bool :=
  match v with
  | PDict d => Return (dict_has key d)
  | PList l =>
      Return (existsb (fun x => match x with
                                | PStr s => String.eqb s key
                                | _ => false
                                end) l)
  | PStr s => Return (substringb key s)
  | PNone | PBool _ | PInt _ => Raise TypeError
  end.

(** [v[key]] for a string [key]: only a dict can be indexed by a string. *)
Definition py_getitem (v : pyval) (key : string) : Outcome pyval :=
  match v with
  | PDict d =>
      match dict_get key d with
      | Some x => Return x
      | None => Raise (KeyError key)
      end
  | _ => Raise TypeError
  end.

(** ** State passing *)

(** A computation over a state [S] returns or raises and leaves a new state;
    the state after a raise is kept, as Python keeps every mutation made
    before the exception. *)
Definition Py (S A : Type) : Type := S -> Outcome A * S.

Definition ret {S A} (a : A) : Py S A := fun st => (Return a, st).

Definition raise {S A} (e : Exn) : Py S A := fun st => (Raise e, st).

Definition bind {S A B} (m : Py S A) (k : A -> Py S B) : Py S B :=
  fun st =>
    match m st with
    | (Return a, st') => k a st'
    | (Raise e, st') => (Raise e, st')
    end.

(** A pure step that can raise. *)
Definition lift {S A} (o : Outcome A) : Py S A := fun st => (o, st).

(** [try: body finally: cleanup]. *)
Definition finally {S A} (body : Py S A) (cleanup : Py S unit) : Py S A :=
  fun st =>
    match body st with
    | (r, st') =>
        match cleanup st' with
        | (Return _, st'') => (r, st'')
        | (Raise e, st'') => (Raise e, st'')
        end
    end.

Notation "'let!' x ':=' m 'in' k" := (bind m (fun x => k))
  (at level 10, x name, m at level 100, k at level 200,
   format "'[v' 'let!'  x  ':='  m  'in' '/' k ']'").
Notation "m ';;' k" := (bind m (fun _ => k))
  (at level 100, k at level 200, right associativity).

(** ** The network *)

Inductive Method : Set := GET | POST | DELETE.

(** What a client hands to the transport library: the arguments of
    [requests.get/post/delete] and of [session.get/post/delete]. *)
Record Request : Type := {
  rq_method : Method;
  rq_url : string;
  rq_headers : gmap string string;
  rq_json : option pyval;
  rq_params : option (list (string * pyval))
}.

(** The observable world: the requests handed to the transport, oldest
    first, each with the session it went through ([None] for the module-level
    functions of [requests]), and the transport sessions created so far, a
    session being identified by its index and [true] meaning closed. *)
Record World : Type := {
  sent : list (option nat * Request);
  sessions : list bool
}.

(** An instance together with the world it lives in. *)
Record State (C : Type) : Type := {
  st_self : C;
  st_world : World
}.
Arguments st_self {C} s.
Arguments st_world {C} s.

Definition get_self {C} : Py (State C) C := fun st => (Return (st_self st), st).

(** The outcome of decoding a body as JSON: a value, or
    [json.JSONDecodeError]. *)
Inductive JsonResult : Type :=
| Decoded (v : pyval)
| DecodeFails.

(** The outcome of [await response.json()] on an [aiohttp.ClientResponse]:
    aiohttp first checks the Content-Type header and raises
    [ContentTypeError] when it is not a JSON type; only then is the body
    decoded.  An outcome of the decoding is read as the outcome of a call
    that passed the check. *)
Inductive AioJsonResult : Type :=
| JsonBody (r : JsonResult)
| ContentTypeFails.
Coercion JsonBody : JsonResult >-> AioJsonResult.

(** The attributes of a [requests.Response] the clients read. *)
Record Response : Type := {
  resp_status_code : Z;
  resp_ok : bool;
  resp_text : string;
  resp_json : JsonResult
}.

(** The attributes of an [aiohttp.ClientResponse] the client reads. *)
Record ClientResponse : Type := {
  cr_status : Z;
  cr_content_length : option Z;
  cr_json : AioJsonResult
}.

Section Transport.
Context {C R : Type}.
(** The remote side and the transport library: given the requests made so
    far and a new one, an answer or a transport exception. *)
Variable server : list (option nat * Request) -> Request -> Outcome R.

Definition log_request (via : option nat) (rq : Request) (w : World) : World :=
  {| sent := (sent w ++ [(via, rq)])%list; sessions := sessions w |}.

Definition transport_send (via : option nat) (rq : Request) : Py (State C) R :=
  fun st =>
    (server (sent (st_world st)) rq,
     {| st_self := st_self st;
        st_world := log_request via rq (st_world st) |}).
End Transport.

(** [response.json()] outside a [try]. *)
Definition json_of {S} (r : JsonResult) : Py S pyval :=
  match r with
  | Decoded v => ret v
  | DecodeFails => raise JSONDecodeError
  end.

(** [await response.json()] outside a [try], on an aiohttp response. *)
Definition aio_json_of {S} (r : AioJsonResult) : Py S pyval :=
  match r with
  | JsonBody j => json_of j
  | ContentTypeFails => raise ContentTypeError
  end.

(** [key in result], once [result] is known to be a dict. *)
Definition has_key (key : string) (v : pyval) : bool :=
  match v with
  | PDict d => dict_has key d
  | _ => false
  end.

(** Truth value of a constructor argument that may be missing ([None]). *)
Definition arg_truthy (a : option string) : bool :=
  match a with
  | Some s => negb (String.eqb s EmptyString)
  | None => false
  end.

(** The dict literal of the three constructors. *)
Definition default_headers (api_key : string) : gmap string string :=
  <["Content-Type" := "application/json"]> (<["x-api-key" := api_key]> ∅).

(** The [try] block of [_handle_errors] in the two blocking clients:
    [error_data] stays [None] unless the text is non-empty and decodes. *)
Definition error_body (response : Response) : pyval :=
  if negb (String.eqb (resp_text response) EmptyString) then
    match resp_json response with
    | Decoded v => v
    | DecodeFails => PNone
    end
  else PNone.

(** The same block in the non-blocking client.  The body is decoded only
    when [content_length] is present, non-zero and positive; the [except]
    clause catches [json.JSONDecodeError] and nothing else, so the
    [ContentTypeError] of aiohttp leaves the block and the handler. *)
Definition decode_error_body_async (response : ClientResponse) : Outcome pyval :=
  if match cr_content_length response with
     | Some n => negb (n =? 0) && (n >? 0)
     | None => false
     end
  then
    match cr_json response with
    | JsonBody (Decoded v) => Return v
    | JsonBody DecodeFails => Return PNone
    | ContentTypeFails => Raise ContentTypeError
    end
  else Return PNone.

(** The value of the variable [error_data] when that block is left, whether
    at its end or by an exception that escapes it (the variable is still
    [None] then). *)
Definition error_body_async (response : ClientResponse) : pyval :=
  match decode_error_body_async response with
  | Return v => v
  | Raise _ => PNone
  end.

(** A call of one of the five operations, with its arguments. *)
Inductive Call : Type :=
| CallSet (key : string) (value : pyval) (partial_update : bool)
| CallGet (key : string)
| CallDelete (key : string)
| CallIncrement (key : string) (increment : Z)
| CallQuery (start_key end_key : string) (limit : Z).

(** ** The SDK client (src/sdk/python/src/hpkv_rest_client/hpkv_client.py) *)

Module Sdk.

Record HPKVClient : Type := {
  base_url : string;
  api_key : string;
  headers : gmap string string
}.

Definition __init__ (base_url api_key : option string) : Py World HPKVClient :=
  if negb (arg_truthy base_url) then raise (ValueError "base_url is required")
  else if negb (arg_truthy api_key) then raise (ValueError "api_key is required")
  else ret {| base_url := default EmptyString base_url;
              api_key := default EmptyString api_key;
              headers := default_headers (default EmptyString api_key) |}.

Section Operations.
Variable server : list (option nat * Request) -> Request -> Outcome Response.

Abbreviation M := (Py (State HPKVClient)).

Definition requests_call (m : Method) (url : string)
    (headers : gmap string string) (json : option pyval)
    (params : option (list (string * pyval))) : M Response :=
  transport_send server None
    {| rq_method := m; rq_url := url; rq_headers := headers;
       rq_json := json; rq_params := params |}.

Definition _handle_errors (response : Response) : M unit :=
  if negb (resp_ok response) then
    let error_data := error_body response in
    let! has_error :=
      (if py_truthy error_data then lift (py_in "error" error_data)
       else ret false) in
    let! message :=
      (if has_error then lift (py_getitem error_data "error")
       else ret (PStr ("HTTP error " ++ py_str_int (resp_status_code response)))) in
    let status := resp_status_code response in
    if status =? 400 then
      raise (HPKVError HPKVBadRequestError message status error_data)
    else if status =? 401 then
      raise (HPKVError HPKVUnauthorizedError message status error_data)
    else if status =? 403 then
      raise (HPKVError HPKVForbiddenError message status error_data)
    else if status =? 404 then
      raise (HPKVError HPKVNotFoundError message status error_data)
    else if status =? 409 then
      raise (HPKVError HPKVConflictError message status error_data)
    else if status =? 429 then
      raise (HPKVError HPKVRateLimitError message status error_data)
    else if status >=? 500 then
      raise (HPKVError HPKVInternalError message status error_data)
    else
      raise (HPKVError HPKVException message status error_data)
  else ret tt.

Definition invalid_format (response : Response) (result : pyval) : Exn :=
  HPKVError HPKVInternalError (PStr "Invalid response format from server")
            (resp_status_code response) result.

Definition set (key : string) (value : pyval) (partial_update : bool)
    : M pyval :=
  let! self := get_self in
  let url := base_url self ++ "/record" in
  let value := if negb (is_str value) then PStr (json_dumps value) else value in
  let payload := PDict [("key", PStr (quote key));
                        ("value", value);
                        ("partialUpdate", PBool partial_update)] in
  let! response := requests_call POST url (headers self) (Some payload) None in
  _handle_errors response ;;
  let! result := json_of (resp_json response) in
  if negb (is_dict result) || negb (has_key "success" result) then
    raise (invalid_format response result)
  else ret result.

Definition get (key : string) : M pyval :=
  let! self := get_self in
  let url := base_url self ++ "/record/" ++ quote key in
  let! response := requests_call GET url (headers self) None None in
  _handle_errors response ;;
  let! result := json_of (resp_json response) in
  if negb (is_dict result) || negb (has_key "key" result)
     || negb (has_key "value" result) then
    raise (invalid_format response result)
  else ret result.

Definition delete (key : string) : M pyval :=
  let! self := get_self in
  let url := base_url self ++ "/record/" ++ quote key in
  let! response := requests_call DELETE url (headers self) None None in
  _handle_errors response ;;
  let! result := json_of (resp_json response) in
  if negb (is_dict result) || negb (has_key "success" result) then
    raise (invalid_format response result)
  else ret result.

Definition increment (key : string) (increment : Z) : M pyval :=
  let! self := get_self in
  let url := base_url self ++ "/record/atomic" in
  let payload := PDict [("key", PStr (quote key));
                        ("increment", PInt increment)] in
  let! response := requests_call POST url (headers self) (Some payload) None in
  _handle_errors response ;;
  let! result := json_of (resp_json response) in
  if negb (is_dict result) || negb (has_key "result" result) then
    raise (invalid_format response result)
  else ret result.

Definition query (start_key end_key : string) (limit : Z) : M pyval :=
  let! self := get_self in
  let url := base_url self ++ "/records" in
  let params := [("startKey", PStr (quote start_key));
                 ("endKey", PStr (quote end_key));
                 ("limit", PInt limit)] in
  let! response := requests_call GET url (headers self) None (Some params) in
  _handle_errors response ;;
  let! result := json_of (resp_json response) in
  if negb (is_dict result) || negb (has_key "records" result)
     || negb (has_key "count" result) then
    raise (invalid_format response result)
  else ret result.

Definition call (c : Call) : M pyval :=
  match c with
  | CallSet key value partial_update => set key value partial_update
  | CallGet key => get key
  | CallDelete key => delete key
  | CallIncrement key amount => increment key amount
  | CallQuery start_key end_key limit => query start_key end_key limit
  end.
End Operations.

End Sdk.

(** ** The plain blocking client (src/python/hpkv_client.py) *)

Module Plain.

Record HPKVClient : Type := {
  base_url : string;
  api_key : string;
  headers : gmap string string
}.

Definition __init__ (base_url api_key : option string) : Py World HPKVClient :=
  if negb (arg_truthy base_url) then raise (ValueError "base_url is required")
  else if negb (arg_truthy api_key) then raise (ValueError "api_key is required")
  else ret {| base_url := default EmptyString base_url;
              api_key := default EmptyString api_key;
              headers := default_headers (default EmptyString api_key) |}.

Section Operations.
Variable server : list (option nat * Request) -> Request -> Outcome Response.

Abbreviation M := (Py (State HPKVClient)).

Definition requests_call (m : Method) (url : string)
    (headers : gmap string string) (json : option pyval)
    (params : option (list (string * pyval))) : M Response :=
  transport_send server None
    {| rq_method := m; rq_url := url; rq_headers := headers;
       rq_json := json; rq_params := params |}.

Definition _handle_errors (response : Response) : M unit :=
  if negb (resp_ok response) then
    let error_data := error_body response in
    let! has_error :=
      (if py_truthy error_data then lift (py_in "error" error_data)
       else ret false) in
    let! message :=
      (if has_error then lift (py_getitem error_data "error")
       else ret (PStr ("HTTP error " ++ py_str_int (resp_status_code response)))) in
    raise (HPKVError HPKVException message (resp_status_code response)
                     error_data)
  else ret tt.

Definition set (key : string) (value : pyval) (partial_update : bool)
    : M pyval :=
  let! self := get_self in
  let url := base_url self ++ "/record" in
  let value := if negb (is_str value) then PStr (json_dumps value) else value in
  let payload := PDict [("key", PStr (quote key));
                        ("value", value);
                        ("partialUpdate", PBool partial_update)] in
  let! response := requests_call POST url (headers self) (Some payload) None in
  _handle_errors response ;;
  json_of (resp_json response).

Definition get (key : string) : M pyval :=
  let! self := get_self in
  let url := base_url self ++ "/record/" ++ quote key in
  let! response := requests_call GET url (headers self) None None in
  _handle_errors response ;;
  json_of (resp_json response).

Definition delete (key : string) : M pyval :=
  let! self := get_self in
  let url := base_url self ++ "/record/" ++ quote key in
  let! response := requests_call DELETE url (headers self) None None in
  _handle_errors response ;;
  json_of (resp_json response).

Definition increment (key : string) (increment : Z) : M pyval :=
  let! self := get_self in
  let url := base_url self ++ "/record/atomic" in
  let payload := PDict [("key", PStr (quote key));
                        ("increment", PInt increment)] in
  let! response := requests_call POST url (headers self) (Some payload) None in
  _handle_errors response ;;
  json_of (resp_json response).

Definition query (start_key end_key : string) (limit : Z) : M pyval :=
  let! self := get_self in
  let url := base_url self ++ "/records" in
  let params := [("startKey", PStr (quote start_key));
                 ("endKey", PStr (quote end_key));
                 ("limit", PInt limit)] in
  let! response := requests_call GET url (headers self) None (Some params) in
  _handle_errors response ;;
  json_of (resp_json response).

Definition call (c : Call) : M pyval :=
  match c with
  | CallSet key value partial_update => set key value partial_update
  | CallGet key => get key
  | CallDelete key => delete key
  | CallIncrement key amount => increment key amount
  | CallQuery start_key end_key limit => query start_key end_key limit
  end.
End Operations.

End Plain.

(** ** The non-blocking client (src/python/async_hpkv_client.py) *)

Module Async.

(** [session] is [None] or the index of a session of the world. *)
Record AsyncHPKVClient : Type := {
  base_url : string;
  api_key : string;
  headers : gmap string string;
  session : option nat
}.

Definition with_session (s : option nat) (c : AsyncHPKVClient)
    : AsyncHPKVClient :=
  {| base_url := base_url c; api_key := api_key c; headers := headers c;
     session := s |}.

Definition __init__ (base_url api_key : option string)
    : Py World AsyncHPKVClient :=
  if negb (arg_truthy base_url) then raise (ValueError "base_url is required")
  else if negb (arg_truthy api_key) then raise (ValueError "api_key is required")
  else ret {| base_url := default EmptyString base_url;
              api_key := default EmptyString api_key;
              headers := default_headers (default EmptyString api_key);
              session := None |}.

Abbreviation M := (Py (State AsyncHPKVClient)).

(** [self.session = value]. *)
Definition set_session (value : option nat) : M unit :=
  fun st =>
    (Return tt,
     {| st_self := with_session value (st_self st); st_world := st_world st |}).

(** [aiohttp.ClientSession()]: a new open session. *)
Definition ClientSession : M nat :=
  fun st =>
    let w := st_world st in
    (Return (List.length (sessions w)),
     {| st_self := st_self st;
        st_world := {| sent := sent w; sessions := (sessions w ++ [false])%list |} |}).

(** [await session.close()]. *)
Definition session_close (s : nat) : M unit :=
  fun st =>
    let w := st_world st in
    (Return tt,
     {| st_self := st_self st;
        st_world := {| sent := sent w; sessions := <[s := true]> (sessions w) |} |}).

Definition __aenter__ : M unit :=
  let! s := ClientSession in
  set_session (Some s).

Definition __aexit__ : M unit :=
  let! self := get_self in
  match session self with
  | Some s => session_close s
  | None => ret tt
  end.

Definition _get_session : M nat :=
  let! self := get_self in
  match session self with
  | None =>
      let! s := ClientSession in
      set_session (Some s) ;;
      ret s
  | Some s => ret s
  end.

(** [async with client: body]. *)
Definition async_with {A} (body : M A) : M A :=
  __aenter__ ;; finally body __aexit__.

Section Operations.
Variable server :
  list (option nat * Request) -> Request -> Outcome ClientResponse.

(** [session.get/post/delete(...)]; a closed session refuses to send. *)
Definition session_call (s : nat) (m : Method) (url : string)
    (headers : gmap string string) (json : option pyval)
    (params : option (list (string * pyval))) : M ClientResponse :=
  fun st =>
    match sessions (st_world st) !! s with
    | Some false =>
        transport_send server (Some s)
          {| rq_method := m; rq_url := url; rq_headers := headers;
             rq_json := json; rq_params := params |} st
    | _ => (Raise (RuntimeError "Session is closed"), st)
    end.

Definition _handle_errors (response : ClientResponse) : M unit :=
  if cr_status response >=? 400 then
    let! error_data := lift (decode_error_body_async response) in
    let! has_error :=
      (if py_truthy error_data then lift (py_in "error" error_data)
       else ret false) in
    let! message :=
      (if has_error then lift (py_getitem error_data "error")
       else ret (PStr ("HTTP error " ++ py_str_int (cr_status response)))) in
    raise (HPKVError HPKVException message (cr_status response) error_data)
  else ret tt.

Definition set (key : string) (value : pyval) (partial_update : bool)
    : M pyval :=
  let! self := get_self in
  let url := base_url self ++ "/record" in
  let value := if negb (is_str value) then PStr (json_dumps value) else value in
  let payload := PDict [("key", PStr (quote key));
                        ("value", value);
                        ("partialUpdate", PBool partial_update)] in
  let! session := _get_session in
  let! response := session_call session POST url (headers self)
                                (Some payload) None in
  _handle_errors response ;;
  aio_json_of (cr_json response).

Definition get (key : string) : M pyval :=
  let! self := get_self in
  let url := base_url self ++ "/record/" ++ quote key in
  let! session := _get_session in
  let! response := session_call session GET url (headers self) None None in
  _handle_errors response ;;
  aio_json_of (cr_json response).

Definition delete (key : string) : M pyval :=
  let! self := get_self in
  let url := base_url self ++ "/record/" ++ quote key in
  let! session := _get_session in
  let! response := session_call session DELETE url (headers self) None None in
  _handle_errors response ;;
  aio_json_of (cr_json response).

Definition increment (key : string) (increment : Z) : M pyval :=
  let! self := get_self in
  let url := base_url self ++ "/record/atomic" in
  let payload := PDict [("key", PStr (quote key));
                        ("increment", PInt increment)] in
  let! session := _get_session in
  let! response := session_call session POST url (headers self)
                                (Some payload) None in
  _handle_errors response ;;
  aio_json_of (cr_json response).

Definition query (start_key end_key : string) (limit : Z) : M pyval :=
  let! self := get_self in
  let url := base_url self ++ "/records" in
  let params := [("startKey", PStr (quote start_key));
                 ("endKey", PStr (quote end_key));
                 ("limit", PInt limit)] in
  let! session := _get_session in
  let! response := session_call session GET url (headers self) None
                                (Some params) in
  _handle_errors response ;;
  aio_json_of (cr_json response).

Definition call (c : Call) : M pyval :=
  match c with
  | CallSet key value partial_update => set key value partial_update
  | CallGet key => get key
  | CallDelete key => delete key
  | CallIncrement key amount => increment key amount
  | CallQuery start_key end_key limit => query start_key end_key limit
  end.
End Operations.

End Async.

(** ** The specification's vocabulary *)

(** Error classification by status code, as the specification words it:
    400, 401, 403, 404, 409 and 429 have a variant of their own, every
    status from 500 on is internal, anything else is generic. *)
Definition variant_of_status (status : Z) : HPKVClass :=
  if status =? 400 then HPKVBadRequestError
  else if status =? 401 then HPKVUnauthorizedError
  else if status =? 403 then HPKVForbiddenError
  else if status =? 404 then HPKVNotFoundError
  else if status =? 409 then HPKVConflictError
  else if status =? 429 then HPKVRateLimitError
  else if 500 <=? status then HPKVInternalError
  else HPKVException.

(** The generic message, and the message derived from a decoded error body:
    its [error] field when the body is an object with that field. *)
Definition generic_message (status : Z) : pyval :=
  PStr ("HTTP error " ++ py_str_int status).

Definition error_message (status : Z) (error_data : pyval) : pyval :=
  match error_data with
  | PDict d =>
      match dict_get "error" d with
      | Some m => m
      | None => generic_message status
      end
  | _ => generic_message status
  end.

(** The required response fields of each operation. *)
Definition required_fields (c : Call) : list string :=
  match c with
  | CallSet _ _ _ => ["success"]
  | CallGet _ => ["key"; "value"]
  | CallDelete _ => ["success"]
  | CallIncrement _ _ => ["result"]
  | CallQuery _ _ _ => ["records"; "count"]
  end.

(** A decoded body is well shaped for an operation when it is an object
    that contains every required field. *)
Definition well_shaped (c : Call) (body : pyval) : bool :=
  is_dict body && forallb (fun k => has_key k body) (required_fields c).

(** Wire form of a value: text as it is, anything else JSON-encoded. *)
Definition wire_value (value : pyval) : string :=
  match value with
  | PStr s => s
  | v => json_dumps v
  end.

(** The bodies on which the lookup of the [error] field is well defined:
    an object, a falsy value (among them [None], the absent or undecodable
    body), a string that does not contain "error" and a list that has no
    element "error".  On the remaining values (a non-zero number, [True], a
    string containing "error", a list with the element "error") the lookup
    itself raises. *)
Definition lookup_safe (v : pyval) : bool :=
  match v with
  | PDict _ => true
  | PStr s => negb (substringb "error" s)
  | PList l =>
      negb (existsb (fun x => match x with
                              | PStr s => String.eqb s "error"
                              | _ => false
                              end) l)
  | PNone | PBool _ | PInt _ => negb (py_truthy v)
  end.

(** A remote side that answers every request with [response]. *)
Definition answers {R} (response : R)
    : list (option nat * Request) -> Request -> Outcome R :=
  fun _ _ => Return response.

(** The requests handed to the transport between two worlds. *)
Definition new_requests (before after : World) : list (option nat * Request) :=
  drop (List.length (sent before)) (sent after).

(** The session a non-blocking client will send through: the one it holds,
    or the next one to be created. *)
Definition next_session (st : State Async.AsyncHPKVClient) : nat :=
  match Async.session (st_self st) with
  | Some s => s
  | None => List.length (sessions (st_world st))
  end.

(** The non-blocking client holds no session yet, or an open one. *)
Definition session_usable (st : State Async.AsyncHPKVClient) : bool :=
  match Async.session (st_self st) with
  | None => true
  | Some s =>
      match sessions (st_world st) !! s with
      | Some false => true
      | _ => false
      end
  end.

(** Sessions of a world that were created and never closed. *)
Definition unreleased (w : World) : list nat :=
  filter (fun s => sessions w !! s = Some false) (seq 0 (List.length (sessions w))).

(** The request each operation makes, after the interface table of the
    specification: method, path under the base endpoint, JSON body or query
    parameters, with every key percent-encoded and the value in wire form. *)
Definition request_of (base_url : string) (headers : gmap string string)
    (c : Call) : Request :=
  match c with
  | CallSet key value partial_update =>
      {| rq_method := POST; rq_url := base_url ++ "/record";
         rq_headers := headers;
         rq_json := Some (PDict [("key", PStr (quote key));
                                 ("value", PStr (wire_value value));
                                 ("partialUpdate", PBool partial_update)]);
         rq_params := None |}
  | CallGet key =>
      {| rq_method := GET; rq_url := base_url ++ "/record/" ++ quote key;
         rq_headers := headers; rq_json := None; rq_params := None |}
  | CallDelete key =>
      {| rq_method := DELETE; rq_url := base_url ++ "/record/" ++ quote key;
         rq_headers := headers; rq_json := None; rq_params := None |}
  | CallIncrement key amount =>
      {| rq_method := POST; rq_url := base_url ++ "/record/atomic";
         rq_headers := headers;
         rq_json := Some (PDict [("key", PStr (quote key));
                                 ("increment", PInt amount)]);
         rq_params := None |}
  | CallQuery start_key end_key limit =>
      {| rq_method := GET; rq_url := base_url ++ "/records";
         rq_headers := headers; rq_json := None;
         rq_params := Some [("startKey", PStr (quote start_key));
                            ("endKey", PStr (quote end_key));
                            ("limit", PInt limit)] |}
  end.

(** The key of a call travels percent-encoded in a request: in the path for
    get and delete, in the body for set and increment, in the query
    parameters (both boundaries) for query. *)
Definition key_transmitted (base_url : string) (c : Call) (rq : Request) : Prop :=
  match c with
  | CallGet key | CallDelete key =>
      rq_url rq = base_url ++ "/record/" ++ quote key
  | CallSet key _ _ | CallIncrement key _ =>
      exists d, rq_json rq = Some (PDict d)
                /\ dict_get "key" d = Some (PStr (quote key))
  | CallQuery start_key end_key _ =>
      exists p, rq_params rq = Some p
                /\ dict_get "startKey" p = Some (PStr (quote start_key))
                /\ dict_get "endKey" p = Some (PStr (quote end_key))
  end.

(** The state of a non-blocking client once it has a session to send
    through: unchanged when it holds one, else with a new open session. *)
Definition session_ready (st : State Async.AsyncHPKVClient)
    : State Async.AsyncHPKVClient :=
  match Async.session (st_self st) with
  | Some _ => st
  | None =>
      {| st_self := Async.with_session (Some (List.length (sessions (st_world st))))
                                       (st_self st);
         st_world := {| sent := sent (st_world st);
                        sessions := (sessions (st_world st) ++ [false])%list |} |}
  end.

(** The value of a set call travels in wire form in the body of a request. *)
Definition value_transmitted (value : pyval) (rq : Request) : Prop :=
  exists d, rq_json rq = Some (PDict d)
            /\ dict_get "value" d = Some (PStr (wire_value value)).

(** The contract of a constructor [init] of a client class with the given
    attribute readers: a configuration error ([ValueError]) exactly when the
    endpoint or the credential is missing or empty; otherwise an instance
    holding both strings and exactly the two default headers; and, in every
    case, an untouched world (nothing sent, no session created). *)
Definition constructor_contract {C : Type}
    (init : option string -> option string -> Py World C)
    (base_url_of api_key_of : C -> string)
    (headers_of : C -> gmap string string) : Prop :=
  forall (base_url api_key : option string) (w : World),
    ((exists m, fst (init base_url api_key w) = Raise (ValueError m))
     <-> (base_url = None \/ base_url = Some EmptyString \/
          api_key = None \/ api_key = Some EmptyString))
    /\ (forall b k,
          base_url = Some b -> api_key = Some k -> b <> EmptyString -> k <> EmptyString ->
          exists c,
            fst (init base_url api_key w) = Return c
            /\ base_url_of c = b /\ api_key_of c = k
            /\ forall name,
                 headers_of c !! name
                 = if String.eqb name "Content-Type" then Some "application/json"
                   else if String.eqb name "x-api-key" then Some k
                   else None)
    /\ snd (init base_url api_key w) = w.

(** A computation that leaves the state as it found it. *)
Definition stateless {S A} (m : Py S A) : Prop :=
  forall st, snd (m st) = st.

(** Two states of a non-blocking client with the same configuration: they
    differ at most in the [session] attribute. *)
Definition same_config (c c' : Async.AsyncHPKVClient) : Prop :=
  Async.base_url c' = Async.base_url c
  /\ Async.api_key c' = Async.api_key c
  /\ Async.headers c' = Async.headers c.

(** An operation of a client in state [st] receives [response]: the remote
    side answers the request of the call with it (and, for the non-blocking
    client, the session to send through is open). *)
Definition Sdk_receives
    (server : list (option nat * Request) -> Request -> Outcome Response)
    (c : Call) (st : State Sdk.HPKVClient) (response : Response) : Prop :=
  server (sent (st_world st))
         (request_of (Sdk.base_url (st_self st)) (Sdk.headers (st_self st)) c)
  = Return response.

Definition Plain_receives
    (server : list (option nat * Request) -> Request -> Outcome Response)
    (c : Call) (st : State Plain.HPKVClient) (response : Response) : Prop :=
  server (sent (st_world st))
         (request_of (Plain.base_url (st_self st)) (Plain.headers (st_self st)) c)
  = Return response.

Definition Async_receives
    (server : list (option nat * Request) -> Request -> Outcome ClientResponse)
    (c : Call) (st : State Async.AsyncHPKVClient) (response : ClientResponse)
    : Prop :=
  session_usable st = true
  /\ server (sent (st_world st))
            (request_of (Async.base_url (st_self st))
                        (Async.headers (st_self st)) c)
     = Return response.

(** ** Sample instances and responses *)

Definition empty_world : World := {| sent := []; sessions := [] |}.

Definition sdk_state : State Sdk.HPKVClient :=
  {| st_self := {| Sdk.base_url := "https://api.hpkv.io";
                   Sdk.api_key := "secret";
                   Sdk.headers := default_headers "secret" |};
     st_world := empty_world |}.

Definition plain_state : State Plain.HPKVClient :=
  {| st_self := {| Plain.base_url := "https://api.hpkv.io";
                   Plain.api_key := "secret";
                   Plain.headers := default_headers "secret" |};
     st_world := empty_world |}.

Definition async_state : State Async.AsyncHPKVClient :=
  {| st_self := {| Async.base_url := "https://api.hpkv.io";
                   Async.api_key := "secret";
                   Async.headers := default_headers "secret";
                   Async.session := None |};
     st_world := empty_world |}.

Definition not_found_body : pyval := PDict [("error", PStr "Record not found")].

(** HTTP 404 with the body [{"error": "Record not found"}]. *)
Definition response_404 : Response :=
  {| resp_status_code := 404; resp_ok := false;
     resp_text := "{" ++ dquote ++ "error" ++ dquote ++ ": " ++ dquote
                  ++ "Record not found" ++ dquote ++ "}";
     resp_json := Decoded not_found_body |}.

(** HTTP 200 with the body [{}]. *)
Definition response_200_empty : Response :=
  {| resp_status_code := 200; resp_ok := true; resp_text := "{}";
     resp_json := Decoded (PDict []) |}.

(** HTTP 200 with the body [{"success": true}]. *)
Definition response_200_success : Response :=
  {| resp_status_code := 200; resp_ok := true;
     resp_text := "{" ++ dquote ++ "success" ++ dquote ++ ": true}";
     resp_json := Decoded (PDict [("success", PBool true)]) |}.

(** HTTP 502 whose body is the JSON string ["upstream error"]. *)
Definition response_502_text : Response :=
  {| resp_status_code := 502; resp_ok := false;
     resp_text := dquote ++ "upstream error" ++ dquote;
     resp_json := Decoded (PStr "upstream error") |}.

(** HTTP 500 sent with chunked transfer encoding (no content length) whose
    body is [{"error": "boom"}]. *)
Definition chunked_500 : ClientResponse :=
  {| cr_status := 500; cr_content_length := None;
     cr_json := Decoded (PDict [("error", PStr "boom")]) |}.

(** HTTP 200 with the body [{"key": "k", "value": "v"}]. *)
Definition async_200_record : ClientResponse :=
  {| cr_status := 200; cr_content_length := Some 26;
     cr_json := Decoded (PDict [("key", PStr "k"); ("value", PStr "v")]) |}.

(** A call made before the usage scope is entered, then a scope around a
    second call:
    [await client.get("k")] followed by
    [async with client: await client.get("k")]. *)
Definition call_then_scope
    (server : list (option nat * Request) -> Request -> Outcome ClientResponse)
    : Py (State Async.AsyncHPKVClient) pyval :=
  Async.get server "k" ;;
  Async.async_with (Async.get server "k").

(** ** Vocabulary of the further properties *)

(** An outcome with the class of an API exception forgotten. *)
Definition forget_class {A} (o : Outcome A) : Outcome A :=
  match o with
  | Raise (HPKVError _ message status data) =>
      Raise (HPKVError HPKVException message status data)
  | _ => o
  end.

(** The field names of the items of a dict, in order. *)
Definition keys_of (d : list (string * pyval)) : list string := map fst d.

(** The state after a caller has made the calls one after another, going on
    whatever each call returned or raised. *)
Fixpoint Sdk_after
    (server : list (option nat * Request) -> Request -> Outcome Response)
    (calls : list Call) (st : State Sdk.HPKVClient) : State Sdk.HPKVClient :=
  match calls with
  | [] => st
  | c :: rest => Sdk_after server rest (snd (Sdk.call server c st))
  end.

Fixpoint Plain_after
    (server : list (option nat * Request) -> Request -> Outcome Response)
    (calls : list Call) (st : State Plain.HPKVClient)
    : State Plain.HPKVClient :=
  match calls with
  | [] => st
  | c :: rest => Plain_after server rest (snd (Plain.call server c st))
  end.

Fixpoint Async_after
    (server : list (option nat * Request) -> Request -> Outcome ClientResponse)
    (calls : list Call) (st : State Async.AsyncHPKVClient)
    : State Async.AsyncHPKVClient :=
  match calls with
  | [] => st
  | c :: rest => Async_after server rest (snd (Async.call server c st))
  end.

(** A remote side whose transport fails on every request. *)
Definition unreachable {R} (name : string)
    : list (option nat * Request) -> Request -> Outcome R :=
  fun _ _ => Raise (TransportError name).

(** More sample responses: HTTP 200 with a body that is not JSON, HTTP 200
    with the body [{"success": "no"}] and HTTP 500 with the body [7]; further
    down, a non-blocking client that holds the open session 0. *)
Definition response_200_html : Response :=
  {| resp_status_code := 200; resp_ok := true; resp_text := "<html></html>";
     resp_json := DecodeFails |}.

Definition response_200_wrong_type : Response :=
  {| resp_status_code := 200; resp_ok := true;
     resp_text := "{" ++ dquote ++ "success" ++ dquote ++ ": " ++ dquote
                  ++ "no" ++ dquote ++ "}";
     resp_json := Decoded (PDict [("success", PStr "no")]) |}.

Definition response_500_number : Response :=
  {| resp_status_code := 500; resp_ok := false; resp_text := "7";
     resp_json := Decoded (PInt 7) |}.

(** HTTP 200 and HTTP 502 whose body is an HTML page sent as text/html, on
    which aiohttp refuses to decode. *)
Definition async_200_html : ClientResponse :=
  {| cr_status := 200; cr_content_length := Some 13;
     cr_json := ContentTypeFails |}.

Definition async_502_html : ClientResponse :=
  {| cr_status := 502; cr_content_length := Some 13;
     cr_json := ContentTypeFails |}.

Definition async_state_in_session : State Async.AsyncHPKVClient :=
  {| st_self := {| Async.base_url := "https://api.hpkv.io";
                   Async.api_key := "secret";
                   Async.headers := default_headers "secret";
                   Async.session := Some 0%nat |};
     st_world := {| sent := []; sessions := [false] |} |}.

(** * Properties *)

(** ** Sanity checks of the string functions *)

Example quote_colon : quote "test:key" = "test%3Akey".
Proof. reflexivity. Qed.

Example quote_slash_space : quote "a/b c" = "a/b%20c".
Proof. reflexivity. Qed.

Example dumps_object :
  json_dumps (PDict [("a", PInt 1)]) = "{" ++ dquote ++ "a" ++ dquote ++ ": 1}".
Proof. reflexivity. Qed.

Example dumps_list :
  json_dumps (PList [PInt 1; PBool true; PNone; PInt (-3)])
  = "[1, true, null, -3]".
Proof. reflexivity. Qed.

(** ** Dictionaries *)

Lemma dict_get_has key d :
  dict_has key d = true -> exists x, dict_get key d = Some x.
Proof.
  induction d as [|[k v] d IH]; simpl; [discriminate|].
  destruct (String.eqb k key); simpl; eauto.
Qed.

Lemma dict_get_not_has key d :
  dict_has key d = false -> dict_get key d = None.
Proof.
  induction d as [|[k v] d IH]; simpl; [reflexivity|].
  destruct (String.eqb k key); simpl; [discriminate|auto].
Qed.

(** ** The message and the class derived from an error body *)

(** The two steps of [_handle_errors] that look for the [error] field, on a
    body for which that lookup is well defined. *)
Lemma derive_message_safe {S} status error_data (k : pyval -> Py S unit) st :
  lookup_safe error_data = true ->
  bind (if py_truthy error_data then lift (py_in "error" error_data)
        else ret false)
       (fun has_error =>
          bind (if has_error then lift (py_getitem error_data "error")
                else ret (PStr ("HTTP error " ++ py_str_int status)))
               k) st
  = k (error_message status error_data) st.
Proof.
  intros Hb. destruct error_data as [|b|n|s|l|d]; cbn in Hb.
  - reflexivity.
  - destruct b; [discriminate | reflexivity].
  - cbn [py_truthy]. destruct (negb (n =? 0)); [discriminate | reflexivity].
  - cbn [py_truthy py_in]. unfold bind, lift, ret.
    destruct (substringb "error" s); [discriminate|].
    destruct (negb (String.eqb s EmptyString)); reflexivity.
  - cbn [py_truthy py_in]. unfold bind, lift, ret.
    destruct (existsb _ l); [discriminate|].
    destruct l; reflexivity.
  - unfold bind, lift, ret. destruct d as [|kv d]; [reflexivity|].
    cbn [py_truthy py_in].
    destruct (dict_has "error" (kv :: d)) eqn:Hh.
    + destruct (dict_get_has _ _ Hh) as [x Hx].
      unfold py_getitem, error_message. rewrite Hx. reflexivity.
    + unfold error_message. rewrite (dict_get_not_has _ _ Hh). reflexivity.
Qed.

Lemma variant_of_status_raise {S} status message data (st : S) :
  (if status =? 400 then
     raise (HPKVError HPKVBadRequestError message status data)
   else if status =? 401 then
     raise (HPKVError HPKVUnauthorizedError message status data)
   else if status =? 403 then
     raise (HPKVError HPKVForbiddenError message status data)
   else if status =? 404 then
     raise (HPKVError HPKVNotFoundError message status data)
   else if status =? 409 then
     raise (HPKVError HPKVConflictError message status data)
   else if status =? 429 then
     raise (HPKVError HPKVRateLimitError message status data)
   else if status >=? 500 then
     raise (HPKVError HPKVInternalError message status data)
   else
     raise (HPKVError HPKVException message status data)) st
  = (Raise (A := unit)
       (HPKVError (variant_of_status status) message status data), st).
Proof.
  unfold variant_of_status. rewrite Z.geb_leb.
  repeat match goal with
         | |- context [if ?b then _ else _] => destruct b
         end; reflexivity.
Qed.

(** What [_handle_errors] does in each client, on a response it lets
    through and on a failing response whose body is safe to look into. *)
Lemma Sdk_handle_errors_ok response st :
  resp_ok response = true ->
  Sdk._handle_errors response st = (Return tt, st).
Proof. intros H. unfold Sdk._handle_errors. rewrite H. reflexivity. Qed.

Lemma Sdk_handle_errors_failing response st :
  resp_ok response = false ->
  lookup_safe (error_body response) = true ->
  Sdk._handle_errors response st
  = (Raise (HPKVError (variant_of_status (resp_status_code response))
                      (error_message (resp_status_code response)
                                     (error_body response))
                      (resp_status_code response) (error_body response)),
     st).
Proof.
  intros Hok Hb. unfold Sdk._handle_errors. rewrite Hok. cbn [negb].
  rewrite derive_message_safe by exact Hb.
  apply variant_of_status_raise.
Qed.

Lemma Plain_handle_errors_ok response st :
  resp_ok response = true ->
  Plain._handle_errors response st = (Return tt, st).
Proof. intros H. unfold Plain._handle_errors. rewrite H. reflexivity. Qed.

Lemma Plain_handle_errors_failing response st :
  resp_ok response = false ->
  lookup_safe (error_body response) = true ->
  Plain._handle_errors response st
  = (Raise (HPKVError HPKVException
                      (error_message (resp_status_code response)
                                     (error_body response))
                      (resp_status_code response) (error_body response)),
     st).
Proof.
  intros Hok Hb. unfold Plain._handle_errors. rewrite Hok. cbn [negb].
  rewrite derive_message_safe by exact Hb. reflexivity.
Qed.

Lemma Async_handle_errors_ok response st :
  cr_status response < 400 ->
  Async._handle_errors response st = (Return tt, st).
Proof.
  intros H. unfold Async._handle_errors.
  destruct (cr_status response >=? 400) eqn:E; [lia | reflexivity].
Qed.

Lemma Async_handle_errors_failing response data st :
  400 <= cr_status response ->
  decode_error_body_async response = Return data ->
  lookup_safe data = true ->
  Async._handle_errors response st
  = (Raise (HPKVError HPKVException
                      (error_message (cr_status response) data)
                      (cr_status response) data),
     st).
Proof.
  intros Hs Hd Hb. unfold Async._handle_errors.
  destruct (cr_status response >=? 400) eqn:E; [|lia].
  rewrite Hd. unfold bind at 1, lift at 1.
  rewrite derive_message_safe by exact Hb. reflexivity.
Qed.

(** ** Laws of the state-passing combinators *)

Lemma bind_ext {S A B} (m : Py S A) (k k' : A -> Py S B) st :
  (forall a st', k a st' = k' a st') -> bind m k st = bind m k' st.
Proof.
  intros H. unfold bind. destruct (m st) as [[a|e] st']; [apply H | reflexivity].
Qed.

Lemma bind_get_self {C B} (k : C -> Py (State C) B) st :
  bind get_self k st = k (st_self st) st.
Proof. reflexivity. Qed.

Lemma bind_ret {S A B} (a : A) (k : A -> Py S B) st :
  bind (ret a) k st = k a st.
Proof. reflexivity. Qed.

Lemma bind_raise {S A B} e (k : A -> Py S B) (st : S) :
  bind (raise e) k st = (Raise e, st).
Proof. reflexivity. Qed.

(** ** Each operation is one request followed by the handling of its answer *)

Ltac same_tail :=
  repeat (apply bind_ext; intros);
  repeat match goal with
         | |- context [is_dict ?v] => destruct (is_dict v)
         | |- context [has_key ?k ?v] => destruct (has_key k v)
         end; reflexivity.

Lemma Sdk_call_run server c st :
  Sdk.call server c st
  = bind (transport_send server None
            (request_of (Sdk.base_url (st_self st)) (Sdk.headers (st_self st)) c))
         (fun response =>
            Sdk._handle_errors response ;;
            let! result := json_of (resp_json response) in
            if well_shaped c result then ret result
            else raise (Sdk.invalid_format response result)) st.
Proof.
  destruct c; cbn [Sdk.call];
    [unfold Sdk.set | unfold Sdk.get | unfold Sdk.delete
     | unfold Sdk.increment | unfold Sdk.query];
    rewrite bind_get_self;
    unfold well_shaped, required_fields, forallb, Sdk.requests_call, request_of;
    try same_tail.
  destruct value; cbn [is_str negb wire_value]; same_tail.
Qed.

Lemma Plain_call_run server c st :
  Plain.call server c st
  = bind (transport_send server None
            (request_of (Plain.base_url (st_self st))
                        (Plain.headers (st_self st)) c))
         (fun response =>
            Plain._handle_errors response ;;
            json_of (resp_json response)) st.
Proof.
  destruct c; cbn [Plain.call];
    [unfold Plain.set | unfold Plain.get | unfold Plain.delete
     | unfold Plain.increment | unfold Plain.query];
    rewrite bind_get_self;
    unfold Plain.requests_call, request_of; try reflexivity.
  destruct value; reflexivity.
Qed.

Lemma get_session_run st :
  Async._get_session st = (Return (next_session st), session_ready st).
Proof.
  unfold Async._get_session, next_session, session_ready.
  rewrite bind_get_self.
  destruct (Async.session (st_self st)) as [s|] eqn:E; [reflexivity|].
  destruct st as [self w]. reflexivity.
Qed.

Lemma session_ready_open st :
  session_usable st = true ->
  sessions (st_world (session_ready st)) !! next_session st = Some false.
Proof.
  unfold session_usable, session_ready, next_session.
  destruct (Async.session (st_self st)) as [s|].
  - destruct (sessions (st_world st) !! s) as [[|]|]; congruence.
  - intros _. cbn [st_world sessions].
    rewrite lookup_app_r by reflexivity.
    replace (_ - _)%nat with 0%nat by lia. reflexivity.
Qed.

Lemma Async_call_session_run server c st :
  let rq := request_of (Async.base_url (st_self st))
                       (Async.headers (st_self st)) c in
  Async.call server c st
  = bind (Async.session_call server (next_session st) (rq_method rq)
            (rq_url rq) (rq_headers rq) (rq_json rq) (rq_params rq))
         (fun response =>
            Async._handle_errors response ;;
            aio_json_of (cr_json response)) (session_ready st).
Proof.
  destruct c; cbn [Async.call];
    [unfold Async.set | unfold Async.get | unfold Async.delete
     | unfold Async.increment | unfold Async.query];
    rewrite bind_get_self;
    unfold bind at 1; rewrite get_session_run;
    unfold request_of; try reflexivity.
  destruct value; reflexivity.
Qed.

Lemma Async_call_run server c st :
  session_usable st = true ->
  Async.call server c st
  = bind (transport_send server (Some (next_session st))
            (request_of (Async.base_url (st_self st))
                        (Async.headers (st_self st)) c))
         (fun response =>
            Async._handle_errors response ;;
            aio_json_of (cr_json response)) (session_ready st).
Proof.
  intros Hu. rewrite Async_call_session_run. cbv zeta.
  unfold bind at 1 3, Async.session_call.
  rewrite (session_ready_open _ Hu).
  destruct (request_of _ _ c); reflexivity.
Qed.

(** ** The state after a call *)

Lemma stateless_ret {S A} (a : A) : stateless (ret (S := S) a).
Proof. intros st. reflexivity. Qed.

Lemma stateless_raise {S A} e : stateless (raise (S := S) (A := A) e).
Proof. intros st. reflexivity. Qed.

Lemma stateless_lift {S A} (o : Outcome A) : stateless (lift (S := S) o).
Proof. intros st. reflexivity. Qed.

Lemma stateless_bind {S A B} (m : Py S A) (k : A -> Py S B) :
  stateless m -> (forall a, stateless (k a)) -> stateless (bind m k).
Proof.
  intros Hm Hk st. unfold bind. specialize (Hm st).
  destruct (m st) as [[a|e] st']; simpl in Hm; subst st'; [apply Hk | reflexivity].
Qed.

Lemma stateless_json_of {S} r : stateless (json_of (S := S) r).
Proof. destruct r; intros st; reflexivity. Qed.

Lemma stateless_aio_json_of {S} r : stateless (aio_json_of (S := S) r).
Proof. destruct r as [[v|]|]; intros st; reflexivity. Qed.

Ltac stateless_tac :=
  repeat first
    [ apply stateless_ret | apply stateless_raise | apply stateless_lift
    | apply stateless_json_of | apply stateless_aio_json_of
    | apply stateless_bind; [|intros]
    | match goal with
      | |- stateless (if ?b then _ else _) => destruct b
      end ].

Lemma Sdk_handle_errors_stateless response :
  stateless (Sdk._handle_errors response).
Proof. unfold Sdk._handle_errors. stateless_tac. Qed.

Lemma Plain_handle_errors_stateless response :
  stateless (Plain._handle_errors response).
Proof. unfold Plain._handle_errors. stateless_tac. Qed.

Lemma Async_handle_errors_stateless response :
  stateless (Async._handle_errors response).
Proof. unfold Async._handle_errors. stateless_tac. Qed.

Lemma bind_send_stateless {C R B} server via rq (k : R -> Py (State C) B) st :
  (forall r, stateless (k r)) ->
  snd (bind (transport_send server via rq) k st)
  = {| st_self := st_self st; st_world := log_request via rq (st_world st) |}.
Proof.
  intros Hk. unfold bind, transport_send.
  destruct (server (sent (st_world st)) rq) as [r|e]; [apply Hk | reflexivity].
Qed.

Lemma Sdk_call_state server c st :
  snd (Sdk.call server c st)
  = {| st_self := st_self st;
       st_world := log_request None
                     (request_of (Sdk.base_url (st_self st))
                                 (Sdk.headers (st_self st)) c)
                     (st_world st) |}.
Proof.
  rewrite Sdk_call_run. apply bind_send_stateless. intros r.
  pose proof (Sdk_handle_errors_stateless r). stateless_tac; assumption.
Qed.

Lemma Plain_call_state server c st :
  snd (Plain.call server c st)
  = {| st_self := st_self st;
       st_world := log_request None
                     (request_of (Plain.base_url (st_self st))
                                 (Plain.headers (st_self st)) c)
                     (st_world st) |}.
Proof.
  rewrite Plain_call_run. apply bind_send_stateless. intros r.
  pose proof (Plain_handle_errors_stateless r). stateless_tac; assumption.
Qed.

Lemma Async_call_state server c st :
  session_usable st = true ->
  snd (Async.call server c st)
  = {| st_self := st_self (session_ready st);
       st_world := log_request (Some (next_session st))
                     (request_of (Async.base_url (st_self st))
                                 (Async.headers (st_self st)) c)
                     (st_world (session_ready st)) |}.
Proof.
  intros Hu. rewrite Async_call_run by assumption.
  apply bind_send_stateless. intros r.
  pose proof (Async_handle_errors_stateless r). stateless_tac; assumption.
Qed.

Lemma Async_call_self server c st :
  st_self (snd (Async.call server c st)) = st_self (session_ready st).
Proof.
  destruct (session_usable st) eqn:Hu.
  - rewrite Async_call_state by assumption. reflexivity.
  - rewrite Async_call_session_run. cbv zeta.
    unfold bind at 1, Async.session_call.
    assert (Hc : sessions (st_world (session_ready st)) !! next_session st
                 <> Some false).
    { unfold session_usable, session_ready, next_session in *.
      destruct (Async.session (st_self st)) as [s|]; [|discriminate].
      destruct (sessions (st_world st) !! s) as [[|]|]; congruence. }
    destruct (sessions (st_world (session_ready st)) !! next_session st)
      as [[|]|]; try reflexivity.
    congruence.
Qed.

Lemma session_ready_same_config st :
  same_config (st_self st) (st_self (session_ready st)).
Proof.
  unfold session_ready, same_config.
  destruct (Async.session (st_self st)); repeat split; reflexivity.
Qed.

Lemma new_requests_log via rq w :
  new_requests w (log_request via rq w) = [(via, rq)].
Proof.
  unfold new_requests, log_request. cbn [sent].
  rewrite drop_app_length. reflexivity.
Qed.

Lemma session_ready_sent st :
  sent (st_world (session_ready st)) = sent (st_world st).
Proof.
  unfold session_ready. destruct (Async.session (st_self st)); reflexivity.
Qed.

Lemma Sdk_call_requests server c st :
  new_requests (st_world st) (st_world (snd (Sdk.call server c st)))
  = [(None, request_of (Sdk.base_url (st_self st))
                       (Sdk.headers (st_self st)) c)].
Proof. rewrite Sdk_call_state. apply new_requests_log. Qed.

Lemma Plain_call_requests server c st :
  new_requests (st_world st) (st_world (snd (Plain.call server c st)))
  = [(None, request_of (Plain.base_url (st_self st))
                       (Plain.headers (st_self st)) c)].
Proof. rewrite Plain_call_state. apply new_requests_log. Qed.

Lemma Async_call_requests server c st :
  session_usable st = true ->
  new_requests (st_world st) (st_world (snd (Async.call server c st)))
  = [(Some (next_session st),
      request_of (Async.base_url (st_self st))
                 (Async.headers (st_self st)) c)].
Proof.
  intros Hu. rewrite Async_call_state by assumption.
  unfold new_requests, log_request. cbn [st_world sent].
  rewrite session_ready_sent, drop_app_length. reflexivity.
Qed.

Lemma request_of_key base_url headers c :
  key_transmitted base_url c (request_of base_url headers c).
Proof.
  destruct c; cbn; try reflexivity; eexists; repeat split; reflexivity.
Qed.

Lemma request_of_value base_url headers key value partial_update :
  value_transmitted value
    (request_of base_url headers (CallSet key value partial_update)).
Proof. eexists. split; reflexivity. Qed.

(** ** What a call does with the response it receives *)

Lemma Sdk_call_received server c st response :
  Sdk_receives server c st response ->
  fst (Sdk.call server c st)
  = fst ((Sdk._handle_errors response ;;
          let! result := json_of (resp_json response) in
          if well_shaped c result then ret result
          else raise (Sdk.invalid_format response result))
           {| st_self := st_self st;
              st_world := log_request None
                            (request_of (Sdk.base_url (st_self st))
                                        (Sdk.headers (st_self st)) c)
                            (st_world st) |}).
Proof.
  intros Hr. rewrite Sdk_call_run. unfold bind at 1, transport_send.
  rewrite Hr. reflexivity.
Qed.

Lemma Plain_call_received server c st response :
  Plain_receives server c st response ->
  fst (Plain.call server c st)
  = fst ((Plain._handle_errors response ;; json_of (resp_json response))
           {| st_self := st_self st;
              st_world := log_request None
                            (request_of (Plain.base_url (st_self st))
                                        (Plain.headers (st_self st)) c)
                            (st_world st) |}).
Proof.
  intros Hr. rewrite Plain_call_run. unfold bind at 1, transport_send.
  rewrite Hr. reflexivity.
Qed.

Lemma Async_call_received server c st response :
  Async_receives server c st response ->
  fst (Async.call server c st)
  = fst ((Async._handle_errors response ;; aio_json_of (cr_json response))
           {| st_self := st_self (session_ready st);
              st_world := log_request (Some (next_session st))
                            (request_of (Async.base_url (st_self st))
                                        (Async.headers (st_self st)) c)
                            (st_world (session_ready st)) |}).
Proof.
  intros [Hu Hr]. rewrite Async_call_run by assumption.
  unfold bind at 1, transport_send.
  rewrite session_ready_sent, Hr. reflexivity.
Qed.

(** What each client raises on a failing response whose body is safe to look
    into. *)
Lemma Sdk_call_failing server c st response :
  Sdk_receives server c st response ->
  resp_ok response = false ->
  lookup_safe (error_body response) = true ->
  fst (Sdk.call server c st)
  = Raise (HPKVError (variant_of_status (resp_status_code response))
                     (error_message (resp_status_code response)
                                    (error_body response))
                     (resp_status_code response) (error_body response)).
Proof.
  intros Hr Hok Hb. rewrite (Sdk_call_received _ _ _ _ Hr).
  unfold bind at 1. rewrite Sdk_handle_errors_failing by assumption.
  reflexivity.
Qed.

Lemma Plain_call_failing server c st response :
  Plain_receives server c st response ->
  resp_ok response = false ->
  lookup_safe (error_body response) = true ->
  fst (Plain.call server c st)
  = Raise (HPKVError HPKVException
                     (error_message (resp_status_code response)
                                    (error_body response))
                     (resp_status_code response) (error_body response)).
Proof.
  intros Hr Hok Hb. rewrite (Plain_call_received _ _ _ _ Hr).
  unfold bind at 1. rewrite Plain_handle_errors_failing by assumption.
  reflexivity.
Qed.

Lemma Async_call_failing server c st response data :
  Async_receives server c st response ->
  400 <= cr_status response ->
  decode_error_body_async response = Return data ->
  lookup_safe data = true ->
  fst (Async.call server c st)
  = Raise (HPKVError HPKVException
                     (error_message (cr_status response) data)
                     (cr_status response) data).
Proof.
  intros Hr Hs Hd Hb. rewrite (Async_call_received _ _ _ _ Hr).
  unfold bind at 1.
  rewrite (Async_handle_errors_failing response data) by assumption.
  reflexivity.
Qed.

(** What each client does with a successful response that decodes. *)
Lemma Sdk_call_success server c st response v :
  Sdk_receives server c st response ->
  resp_ok response = true ->
  resp_json response = Decoded v ->
  fst (Sdk.call server c st)
  = if well_shaped c v then Return v
    else Raise (HPKVError HPKVInternalError
                          (PStr "Invalid response format from server")
                          (resp_status_code response) v).
Proof.
  intros Hr Hok Hj. rewrite (Sdk_call_received _ _ _ _ Hr).
  unfold bind at 1. rewrite Sdk_handle_errors_ok by assumption.
  rewrite Hj. unfold bind, json_of, ret.
  destruct (well_shaped c v); reflexivity.
Qed.

Lemma Plain_call_success server c st response v :
  Plain_receives server c st response ->
  resp_ok response = true ->
  resp_json response = Decoded v ->
  fst (Plain.call server c st) = Return v.
Proof.
  intros Hr Hok Hj. rewrite (Plain_call_received _ _ _ _ Hr).
  unfold bind at 1. rewrite Plain_handle_errors_ok by assumption.
  rewrite Hj. reflexivity.
Qed.

Lemma Async_call_success server c st response v :
  Async_receives server c st response ->
  cr_status response < 400 ->
  cr_json response = Decoded v ->
  fst (Async.call server c st) = Return v.
Proof.
  intros Hr Hs Hj. rewrite (Async_call_received _ _ _ _ Hr).
  unfold bind at 1. rewrite Async_handle_errors_ok by assumption.
  rewrite Hj. reflexivity.
Qed.

(** ** C1: the exception class is decided by the status code *)

Lemma variant_of_status_table :
  variant_of_status 400 = HPKVBadRequestError
  /\ variant_of_status 401 = HPKVUnauthorizedError
  /\ variant_of_status 403 = HPKVForbiddenError
  /\ variant_of_status 404 = HPKVNotFoundError
  /\ variant_of_status 409 = HPKVConflictError
  /\ variant_of_status 429 = HPKVRateLimitError
  /\ (forall s, 500 <= s -> variant_of_status s = HPKVInternalError)
  /\ (forall s, s < 500 -> s <> 400 -> s <> 401 -> s <> 403 -> s <> 404 ->
                s <> 409 -> s <> 429 -> variant_of_status s = HPKVException).
Proof.
  repeat split; try reflexivity; intros s; unfold variant_of_status; intros.
  - repeat match goal with
           | |- context [?a =? ?b] => destruct (Z.eqb_spec a b); [lia|]
           end.
    destruct (Z.leb_spec 500 s); [reflexivity | lia].
  - repeat match goal with
           | |- context [?a =? ?b] => destruct (Z.eqb_spec a b); [lia|]
           end.
    destruct (Z.leb_spec 500 s); [lia | reflexivity].
Qed.

(** C1, as stated, fails: the plain blocking client answers HTTP 404 with the
    base class [HPKVException], not with the not-found variant (it has no
    per-status classes at all). *)
Lemma C1_counterexample :
  ~ (forall server (c : Call) (st : State Plain.HPKVClient)
            (response : Response),
       Plain_receives server c st response ->
       resp_ok response = false ->
       exists message data,
         fst (Plain.call server c st)
         = Raise (HPKVError (variant_of_status (resp_status_code response))
                            message (resp_status_code response) data)).
Proof.
  intros H.
  destruct (H (answers response_404) (CallGet "k") plain_state response_404
              eq_refl eq_refl) as (m & d & E).
  vm_compute in E. discriminate E.
Qed.

(** C1, amended: for every operation and every failing response on whose
    decoded body the lookup of the error field is well defined (the body is
    absent, undecodable or falsy, a JSON object, or a string or array without
    "error" in it), the SDK client raises the class given by the status code
    alone (400 bad-request, 401 unauthorized, 403 forbidden, 404 not-found,
    409 conflict, 429 rate-limited, 500 and above internal, anything else the
    base class), so that a 404 raises the not-found class for every such
    body; the plain blocking client raises the base class [HPKVException] for
    every such response, whatever the status, and so does the non-blocking
    client whenever its decoding of the error body is not cut short by the
    [ContentTypeError] of aiohttp. *)
Theorem C1_status_decides_variant :
  forall server aserver (c : Call)
         (st : State Sdk.HPKVClient) (pst : State Plain.HPKVClient)
         (ast : State Async.AsyncHPKVClient)
         (response : Response) (cresponse : ClientResponse) (adata : pyval),
    Sdk_receives server c st response ->
    Plain_receives server c pst response ->
    Async_receives aserver c ast cresponse ->
    resp_ok response = false ->
    lookup_safe (error_body response) = true ->
    400 <= cr_status cresponse ->
    decode_error_body_async cresponse = Return adata ->
    lookup_safe adata = true ->
    (exists message,
        fst (Sdk.call server c st)
        = Raise (HPKVError (variant_of_status (resp_status_code response))
                           message (resp_status_code response)
                           (error_body response)))
    /\ (resp_status_code response = 404 ->
        exists message,
          fst (Sdk.call server c st)
          = Raise (HPKVError HPKVNotFoundError message 404
                             (error_body response)))
    /\ (exists message,
          fst (Plain.call server c pst)
          = Raise (HPKVError HPKVException message (resp_status_code response)
                             (error_body response)))
    /\ (exists message,
          fst (Async.call aserver c ast)
          = Raise (HPKVError HPKVException message (cr_status cresponse)
                             adata)).
Proof.
  intros server aserver c st pst ast response cresponse adata
         Hr Hpr Har Hok Hb Hs Hd Hcb.
  pose proof (Sdk_call_failing server c st response Hr Hok Hb) as Hsdk.
  repeat split.
  - eexists. exact Hsdk.
  - intros E. rewrite E in Hsdk. eexists. exact Hsdk.
  - eexists. apply Plain_call_failing; assumption.
  - eexists. apply (Async_call_failing aserver c ast cresponse adata);
      assumption.
Qed.

Lemma C1_witness :
  exists message,
    fst (Sdk.call (answers response_404) (CallGet "k") sdk_state)
    = Raise (HPKVError HPKVNotFoundError message 404 not_found_body).
Proof.
  exact (proj1 (C1_status_decides_variant (answers response_404)
                  (answers chunked_500) (CallGet "k") sdk_state plain_state
                  async_state response_404 chunked_500 PNone
                  eq_refl eq_refl (conj eq_refl eq_refl)
                  eq_refl eq_refl ltac:(vm_compute; discriminate)
                  eq_refl eq_refl)).
Defined.

(** ** C2: validation of the shape of a successful answer *)

(** C2, as stated, fails: the plain blocking client returns the body [{}] of
    a 200 answer to a set call, although it lacks the [success] field. *)
Lemma C2_counterexample :
  ~ (forall server (c : Call) (st : State Plain.HPKVClient)
            (response : Response) (v : pyval),
       Plain_receives server c st response ->
       resp_ok response = true ->
       resp_json response = Decoded v ->
       well_shaped c v = false ->
       fst (Plain.call server c st)
       = Raise (HPKVError HPKVInternalError
                          (PStr "Invalid response format from server")
                          (resp_status_code response) v)).
Proof.
  intros H.
  pose proof (H (answers response_200_empty) (CallSet "k" (PStr "v") false)
                plain_state response_200_empty (PDict [])
                eq_refl eq_refl eq_refl eq_refl) as E.
  vm_compute in E. discriminate E.
Qed.

(** C2, amended: in the SDK client, for every operation, a successful
    response whose decoded body is not an object with all the required
    fields of the operation raises [HPKVInternalError] with the message
    "Invalid response format from server", the status code and the decoded
    body, and a well-shaped body is returned unchanged; the plain blocking
    client and the non-blocking client validate nothing and return every
    decoded body of a successful response unchanged. *)
Theorem C2_shape_validation :
  forall server aserver (c : Call)
         (st : State Sdk.HPKVClient) (pst : State Plain.HPKVClient)
         (ast : State Async.AsyncHPKVClient)
         (response : Response) (cresponse : ClientResponse) (v w : pyval),
    Sdk_receives server c st response ->
    Plain_receives server c pst response ->
    Async_receives aserver c ast cresponse ->
    resp_ok response = true ->
    resp_json response = Decoded v ->
    cr_status cresponse < 400 ->
    cr_json cresponse = Decoded w ->
    fst (Sdk.call server c st)
    = (if well_shaped c v then Return v
       else Raise (HPKVError HPKVInternalError
                             (PStr "Invalid response format from server")
                             (resp_status_code response) v))
    /\ fst (Plain.call server c pst) = Return v
    /\ fst (Async.call aserver c ast) = Return w.
Proof.
  intros server aserver c st pst ast response cresponse v w
         Hr Hpr Har Hok Hj Hs Hcj.
  repeat split.
  - apply Sdk_call_success; assumption.
  - apply (Plain_call_success server c pst response); assumption.
  - apply (Async_call_success aserver c ast cresponse); assumption.
Qed.

Lemma C2_witness :
  fst (Sdk.call (answers response_200_empty) (CallSet "k" (PStr "v") false)
                sdk_state)
  = Raise (HPKVError HPKVInternalError
                     (PStr "Invalid response format from server") 200
                     (PDict []))
  /\ fst (Sdk.call (answers response_200_success) (CallDelete "k") sdk_state)
     = Return (PDict [("success", PBool true)]).
Proof.
  split.
  - exact (proj1 (C2_shape_validation (answers response_200_empty)
                    (answers async_200_record)
                    (CallSet "k" (PStr "v") false) sdk_state
                    plain_state async_state response_200_empty async_200_record
                    _ _ eq_refl eq_refl (conj eq_refl eq_refl)
                    eq_refl eq_refl ltac:(vm_compute; reflexivity) eq_refl)).
  - exact (proj1 (C2_shape_validation (answers response_200_success)
                    (answers async_200_record) (CallDelete "k") sdk_state
                    plain_state async_state response_200_success
                    async_200_record
                    _ _ eq_refl eq_refl (conj eq_refl eq_refl)
                    eq_refl eq_refl ltac:(vm_compute; reflexivity) eq_refl)).
Defined.

(** ** C3: a failing status is handled before the shape of the body *)

(** C3 at a failing input: the SDK client receives HTTP 502 whose body is
    the JSON string "upstream error".  The body is truthy and contains the
    text "error", so the handler indexes a string with a string: every
    operation raises [TypeError] instead of the status-classified
    [HPKVInternalError]. *)
Theorem C3_string_body_type_error :
  py_in "error" (error_body response_502_text) = Return true
  /\ py_getitem (error_body response_502_text) "error" = Raise TypeError
  /\ fst (Sdk.set (answers response_502_text) "k" (PStr "v") false sdk_state)
     = Raise TypeError
  /\ fst (Sdk.get (answers response_502_text) "k" sdk_state) = Raise TypeError
  /\ fst (Sdk.delete (answers response_502_text) "k" sdk_state)
     = Raise TypeError
  /\ fst (Sdk.increment (answers response_502_text) "k" 1 sdk_state)
     = Raise TypeError
  /\ fst (Sdk.query (answers response_502_text) "a" "z" 100 sdk_state)
     = Raise TypeError.
Proof. repeat split; vm_compute; reflexivity. Qed.

(** ** C4: the message of the exception *)

(** C4, as stated, fails in the non-blocking client: a 500 answer without a
    content length whose body is the object [{"error": "boom"}] raises with
    the generic message, not with "boom". *)
Lemma C4_counterexample :
  ~ (forall server (c : Call) (st : State Async.AsyncHPKVClient)
            (response : ClientResponse) d m,
       Async_receives server c st response ->
       400 <= cr_status response ->
       cr_json response = Decoded (PDict d) ->
       dict_get "error" d = Some m ->
       exists cls data,
         fst (Async.call server c st)
         = Raise (HPKVError cls m (cr_status response) data)).
Proof.
  intros H.
  destruct (H (answers chunked_500) (CallGet "k") async_state chunked_500 _
              (PStr "boom") (conj eq_refl eq_refl)
              ltac:(vm_compute; discriminate) eq_refl eq_refl)
    as (cls & data & E).
  vm_compute in E. discriminate E.
Qed.

(** C4, amended: for every failing response on whose error body, as the
    client decodes it, the lookup of the error field is well defined (the body
    is absent, undecodable or falsy, a JSON object, or a string or array
    without "error" in it), the message of the exception is the [error] field
    of the body when the body is an object that has one and "HTTP error
    {status}" otherwise, and the exception carries the decoded body.  The
    blocking clients decode the body whenever the response text is not
    empty; the non-blocking client decodes it only when the content length
    is known and positive.  An empty body, and a body on which the decoding
    raises [json.JSONDecodeError], leave the body absent: that error is
    swallowed in both modes.  A response on which aiohttp refuses to decode
    ([ContentTypeError]) is outside this statement. *)
Theorem C4_error_message :
  forall server aserver (c : Call)
         (st : State Sdk.HPKVClient) (pst : State Plain.HPKVClient)
         (ast : State Async.AsyncHPKVClient)
         (response : Response) (cresponse : ClientResponse) (adata : pyval),
    Sdk_receives server c st response ->
    Plain_receives server c pst response ->
    Async_receives aserver c ast cresponse ->
    resp_ok response = false ->
    lookup_safe (error_body response) = true ->
    400 <= cr_status cresponse ->
    decode_error_body_async cresponse = Return adata ->
    lookup_safe adata = true ->
    (exists cls,
        fst (Sdk.call server c st)
        = Raise (HPKVError cls
                           (error_message (resp_status_code response)
                                          (error_body response))
                           (resp_status_code response) (error_body response)))
    /\ fst (Plain.call server c pst)
       = Raise (HPKVError HPKVException
                          (error_message (resp_status_code response)
                                         (error_body response))
                          (resp_status_code response) (error_body response))
    /\ fst (Async.call aserver c ast)
       = Raise (HPKVError HPKVException
                          (error_message (cr_status cresponse) adata)
                          (cr_status cresponse) adata)
    /\ (resp_text response = EmptyString \/ resp_json response = DecodeFails ->
        error_body response = PNone)
    /\ (forall v, resp_text response <> EmptyString ->
                  resp_json response = Decoded v ->
                  error_body response = v)
    /\ (cr_content_length cresponse = None
        \/ cr_content_length cresponse = Some 0 -> adata = PNone)
    /\ (cr_json cresponse = DecodeFails -> adata = PNone)
    /\ (forall n v, cr_content_length cresponse = Some n -> 0 < n ->
                    cr_json cresponse = Decoded v -> adata = v)
    /\ (forall status d m,
          dict_get "error" d = Some m -> error_message status (PDict d) = m)
    /\ (forall status d,
          dict_get "error" d = None ->
          error_message status (PDict d)
          = PStr ("HTTP error " ++ py_str_int status))
    /\ (forall status v,
          is_dict v = false ->
          error_message status v = PStr ("HTTP error " ++ py_str_int status)).
Proof.
  intros server aserver c st pst ast response cresponse adata
         Hr Hpr Har Hok Hb Hs Hd Hcb.
  split; [|split; [|split; [|split; [|split; [|split; [|split;
    [|split; [|split; [|split]]]]]]]]].
  - eexists. apply Sdk_call_failing; assumption.
  - apply Plain_call_failing; assumption.
  - apply (Async_call_failing aserver c ast cresponse adata); assumption.
  - unfold error_body. intros [E|E]; rewrite E; [reflexivity|].
    destruct (negb _); reflexivity.
  - unfold error_body. intros v Ht Hj. rewrite Hj.
    destruct (String.eqb_spec (resp_text response) EmptyString);
      [contradiction | reflexivity].
  - unfold decode_error_body_async in Hd.
    intros [E|E]; rewrite E in Hd; cbn in Hd; congruence.
  - unfold decode_error_body_async in Hd. intros E. rewrite E in Hd.
    destruct (cr_content_length cresponse) as [n|]; [|congruence].
    destruct (negb (n =? 0) && (n >? 0)); congruence.
  - unfold decode_error_body_async in Hd. intros n v E Hn Hj.
    rewrite E, Hj in Hd.
    destruct (Z.eqb_spec n 0); [lia|].
    destruct (Z.gtb_spec n 0); [|lia]. cbn in Hd. congruence.
  - intros status d m E. cbn. rewrite E. reflexivity.
  - intros status d E. cbn. rewrite E. reflexivity.
  - intros status v E. destruct v; try reflexivity. discriminate E.
Qed.

Lemma C4_witness :
  fst (Plain.call (answers response_404) (CallGet "k") plain_state)
  = Raise (HPKVError HPKVException (PStr "Record not found") 404
                     not_found_body)
  /\ fst (Async.call (answers chunked_500) (CallGet "k") async_state)
     = Raise (HPKVError HPKVException (PStr "HTTP error 500") 500 PNone).
Proof.
  pose proof (C4_error_message (answers response_404) (answers chunked_500)
                (CallGet "k") sdk_state plain_state async_state
                response_404 chunked_500 PNone
                eq_refl eq_refl (conj eq_refl eq_refl)
                eq_refl eq_refl ltac:(vm_compute; discriminate)
                eq_refl eq_refl)
    as (_ & Hp & Ha & _).
  split; [exact Hp | exact Ha].
Defined.

(** ** C10: no content length, no decoded body *)

(** C10: in the non-blocking client, a failing response whose content length
    is absent or zero is never decoded: the error handler, and with it every
    operation that receives the response, raises [HPKVException] with the
    message "HTTP error {status}" and no body, whatever the wire body would
    decode to. *)
Theorem C10_no_length_no_body :
  forall server (c : Call) (st : State Async.AsyncHPKVClient)
         (response : ClientResponse),
    Async_receives server c st response ->
    400 <= cr_status response ->
    cr_content_length response = None \/ cr_content_length response = Some 0 ->
    error_body_async response = PNone
    /\ (forall st',
          Async._handle_errors response st'
          = (Raise (HPKVError HPKVException
                      (PStr ("HTTP error " ++ py_str_int (cr_status response)))
                      (cr_status response) PNone), st'))
    /\ fst (Async.call server c st)
       = Raise (HPKVError HPKVException
                          (PStr ("HTTP error " ++ py_str_int (cr_status response)))
                          (cr_status response) PNone).
Proof.
  intros server c st response Hr Hs Hl.
  assert (Hd : decode_error_body_async response = Return PNone).
  { unfold decode_error_body_async.
    destruct Hl as [E|E]; rewrite E; reflexivity. }
  assert (Hb : error_body_async response = PNone).
  { unfold error_body_async. rewrite Hd. reflexivity. }
  split; [exact Hb|]. split.
  - intros st'.
    rewrite (Async_handle_errors_failing response PNone);
      [reflexivity | assumption | assumption | reflexivity].
  - rewrite (Async_call_failing _ _ _ _ PNone Hr);
      [reflexivity | assumption | assumption | reflexivity].
Qed.

Lemma C10_witness :
  fst (Async.call (answers chunked_500) (CallDelete "k") async_state)
  = Raise (HPKVError HPKVException (PStr "HTTP error 500") 500 PNone).
Proof.
  exact (proj2 (proj2 (C10_no_length_no_body (answers chunked_500)
                         (CallDelete "k") async_state chunked_500
                         (conj eq_refl eq_refl)
                         ltac:(vm_compute; discriminate)
                         (or_introl eq_refl)))).
Defined.

(** ** C5: construction *)

Lemma default_headers_lookup (k name : string) :
  default_headers k !! name
  = if String.eqb name "Content-Type" then Some "application/json"
    else if String.eqb name "x-api-key" then Some k
    else None.
Proof.
  unfold default_headers.
  destruct (String.eqb_spec name "Content-Type") as [->|H1].
  - apply lookup_insert_eq.
  - rewrite lookup_insert_ne by congruence.
    destruct (String.eqb_spec name "x-api-key") as [->|H2].
    + apply lookup_insert_eq.
    + rewrite lookup_insert_ne by congruence. apply lookup_empty.
Qed.

Lemma arg_truthy_false (a : option string) :
  arg_truthy a = false <-> a = None \/ a = Some EmptyString.
Proof.
  destruct a as [s|]; simpl.
  - destruct (String.eqb_spec s EmptyString) as [->|H]; simpl; split; auto.
    + discriminate.
    + intros [E|E]; congruence.
  - split; auto.
Qed.

Lemma missing_args (b k : option string) :
  (b = None \/ b = Some EmptyString \/ k = None \/ k = Some EmptyString)
  <-> (arg_truthy b = false \/ arg_truthy k = false).
Proof. rewrite !arg_truthy_false. tauto. Qed.

Ltac constructor_tac init :=
  intros base_url api_key w; unfold init; split; [|split];
  [ rewrite missing_args;
    destruct (arg_truthy base_url), (arg_truthy api_key); cbn;
    (split; [ intros [m E]; first [discriminate E | auto]
            | intros [H|H]; first [discriminate H | eexists; reflexivity] ])
  | intros b k -> -> Hbn Hkn; cbn [arg_truthy];
    destruct (String.eqb_spec b EmptyString); [contradiction|];
    destruct (String.eqb_spec k EmptyString); [contradiction|];
    cbn; eexists; split; [reflexivity|];
    split; [reflexivity|]; split; [reflexivity|];
    intros name; apply default_headers_lookup
  | destruct (arg_truthy base_url), (arg_truthy api_key); reflexivity ].

Lemma Sdk_constructor :
  constructor_contract Sdk.__init__ Sdk.base_url Sdk.api_key Sdk.headers.
Proof. constructor_tac Sdk.__init__. Qed.

Lemma Plain_constructor :
  constructor_contract Plain.__init__ Plain.base_url Plain.api_key Plain.headers.
Proof. constructor_tac Plain.__init__. Qed.

Lemma Async_constructor :
  constructor_contract Async.__init__ Async.base_url Async.api_key
                       Async.headers.
Proof. constructor_tac Async.__init__. Qed.

(** C5: each of the three constructors raises [ValueError] if and only if
    the base endpoint or the credential is absent or empty; for every pair of
    non-empty strings it returns an instance holding them and exactly the
    headers Content-Type: application/json and x-api-key: credential; and it
    never touches the network: the world after construction is the world
    before it.  The non-blocking client starts without a session. *)
Theorem C5_construction :
  constructor_contract Sdk.__init__ Sdk.base_url Sdk.api_key Sdk.headers
  /\ constructor_contract Plain.__init__ Plain.base_url Plain.api_key
                          Plain.headers
  /\ constructor_contract Async.__init__ Async.base_url Async.api_key
                          Async.headers
  /\ (forall base_url api_key w c,
        fst (Async.__init__ base_url api_key w) = Return c ->
        Async.session c = None).
Proof.
  split; [exact Sdk_constructor|].
  split; [exact Plain_constructor|].
  split; [exact Async_constructor|].
  intros base_url api_key w c. unfold Async.__init__.
  destruct (arg_truthy base_url); [|discriminate].
  destruct (arg_truthy api_key); [|discriminate].
  cbn. intros E. injection E as <-. reflexivity.
Qed.

Lemma C5_witness :
  (exists c,
      fst (Sdk.__init__ (Some "https://api.hpkv.io") (Some "secret") empty_world)
      = Return c
      /\ Sdk.base_url c = "https://api.hpkv.io" /\ Sdk.api_key c = "secret"
      /\ forall name,
           Sdk.headers c !! name
           = if String.eqb name "Content-Type" then Some "application/json"
             else if String.eqb name "x-api-key" then Some "secret"
             else None)
  /\ exists m, fst (Sdk.__init__ (Some EmptyString) (Some "secret") empty_world)
               = Raise (ValueError m).
Proof.
  split.
  - apply (proj1 (proj2 (proj1 C5_construction (Some "https://api.hpkv.io")
                           (Some "secret") empty_world))
                 "https://api.hpkv.io" "secret" eq_refl eq_refl);
      discriminate.
  - apply (proj2 (proj1 (proj1 C5_construction (Some EmptyString) (Some "secret")
                           empty_world))).
    right. left. reflexivity.
Defined.

(** ** C6: the value of a set call on the wire *)

(** C6: in every client, the one request a set call makes carries in the
    [value] field of its body the input itself when the input is a string and
    its JSON encoding otherwise; the structured number 42 and the string
    "42" therefore produce the same request. *)
Theorem C6_value_wire_form :
  forall server aserver key value partial_update
         (st : State Sdk.HPKVClient) (pst : State Plain.HPKVClient)
         (ast : State Async.AsyncHPKVClient),
    session_usable ast = true ->
    (exists rq,
        new_requests (st_world st)
          (st_world (snd (Sdk.set server key value partial_update st)))
        = [(None, rq)] /\ value_transmitted value rq)
    /\ (exists rq,
          new_requests (st_world pst)
            (st_world (snd (Plain.set server key value partial_update pst)))
          = [(None, rq)] /\ value_transmitted value rq)
    /\ (exists rq,
          new_requests (st_world ast)
            (st_world (snd (Async.set aserver key value partial_update ast)))
          = [(Some (next_session ast), rq)] /\ value_transmitted value rq)
    /\ (forall s, wire_value (PStr s) = s)
    /\ (forall v, is_str v = false -> wire_value v = json_dumps v)
    /\ wire_value (PInt 42) = "42"
    /\ new_requests (st_world st)
         (st_world (snd (Sdk.set server key (PInt 42) partial_update st)))
       = new_requests (st_world st)
           (st_world (snd (Sdk.set server key (PStr "42") partial_update st))).
Proof.
  intros server aserver key value partial_update st pst ast Hu.
  split; [|split; [|split; [|split; [|split; [|split]]]]].
  - eexists. split;
      [exact (Sdk_call_requests server (CallSet key value partial_update) st)
      | apply request_of_value].
  - eexists. split;
      [exact (Plain_call_requests server (CallSet key value partial_update) pst)
      | apply request_of_value].
  - eexists. split;
      [exact (Async_call_requests aserver (CallSet key value partial_update)
                ast Hu)
      | apply request_of_value].
  - reflexivity.
  - intros v Hv. destruct v; try reflexivity. discriminate Hv.
  - reflexivity.
  - etransitivity;
      [ exact (Sdk_call_requests server (CallSet key (PInt 42) partial_update) st)
      | symmetry;
        exact (Sdk_call_requests server (CallSet key (PStr "42") partial_update)
                 st) ].
Qed.

Lemma C6_witness :
  exists rq,
    new_requests (st_world async_state)
      (st_world (snd (Async.set (answers async_200_record) "k"
                        (PDict [("a", PInt 1)]) false async_state)))
    = [(Some 0%nat, rq)]
    /\ value_transmitted (PDict [("a", PInt 1)]) rq.
Proof.
  exact (proj1 (proj2 (proj2
           (C6_value_wire_form (answers response_200_success)
              (answers async_200_record) "k" (PDict [("a", PInt 1)]) false
              sdk_state plain_state async_state eq_refl)))).
Defined.

(** ** C7: keys are percent-encoded *)

(** C7: in every client, the one request an operation makes carries the
    percent-encoding [quote key] of each caller-supplied key: in the URL path
    for get and delete, in the [key] field of the body for set and increment,
    and in the [startKey] and [endKey] query parameters for query.  The
    request is the one handed to the transport library. *)
Theorem C7_keys_percent_encoded :
  forall server aserver (c : Call)
         (st : State Sdk.HPKVClient) (pst : State Plain.HPKVClient)
         (ast : State Async.AsyncHPKVClient),
    session_usable ast = true ->
    (exists rq,
        new_requests (st_world st) (st_world (snd (Sdk.call server c st)))
        = [(None, rq)]
        /\ key_transmitted (Sdk.base_url (st_self st)) c rq)
    /\ (exists rq,
          new_requests (st_world pst) (st_world (snd (Plain.call server c pst)))
          = [(None, rq)]
          /\ key_transmitted (Plain.base_url (st_self pst)) c rq)
    /\ (exists rq,
          new_requests (st_world ast) (st_world (snd (Async.call aserver c ast)))
          = [(Some (next_session ast), rq)]
          /\ key_transmitted (Async.base_url (st_self ast)) c rq).
Proof.
  intros server aserver c st pst ast Hu.
  split; [|split].
  - eexists. split; [apply Sdk_call_requests | apply request_of_key].
  - eexists. split; [apply Plain_call_requests | apply request_of_key].
  - eexists. split; [apply Async_call_requests, Hu | apply request_of_key].
Qed.

Lemma C7_witness :
  exists rq,
    new_requests (st_world sdk_state)
      (st_world (snd (Sdk.call (answers response_404) (CallGet "test:key")
                        sdk_state)))
    = [(None, rq)]
    /\ rq_url rq = "https://api.hpkv.io/record/test%3Akey".
Proof.
  exact (proj1 (C7_keys_percent_encoded (answers response_404)
                  (answers chunked_500) (CallGet "test:key")
                  sdk_state plain_state async_state eq_refl)).
Defined.

(** ** The session of the non-blocking client on its intended paths *)

Lemma lookup_fresh_session (l : list bool) :
  (l ++ [false])%list !! List.length l = Some false.
Proof.
  rewrite lookup_app_r by reflexivity.
  replace (_ - _)%nat with 0%nat by lia. reflexivity.
Qed.

(** A first call creates a session; a second call goes through the same
    session and creates none. *)
Lemma lazy_session_reused server c1 c2 st :
  Async.session (st_self st) = None ->
  let st1 := snd (Async.call server c1 st) in
  let st2 := snd (Async.call server c2 st1) in
  Async.session (st_self st1) = Some (List.length (sessions (st_world st)))
  /\ sessions (st_world st1) = (sessions (st_world st) ++ [false])%list
  /\ Async.session (st_self st2) = Async.session (st_self st1)
  /\ sessions (st_world st2) = sessions (st_world st1).
Proof.
  intros Hn st1 st2.
  assert (Hu : session_usable st = true).
  { unfold session_usable. rewrite Hn. reflexivity. }
  assert (E1 : st1
               = {| st_self := Async.with_session
                                 (Some (List.length (sessions (st_world st))))
                                 (st_self st);
                    st_world := log_request
                                  (Some (List.length (sessions (st_world st))))
                                  (request_of (Async.base_url (st_self st))
                                              (Async.headers (st_self st)) c1)
                                  {| sent := sent (st_world st);
                                     sessions := (sessions (st_world st)
                                                  ++ [false])%list |} |}).
  { unfold st1. rewrite Async_call_state by assumption.
    unfold session_ready, next_session. rewrite Hn. reflexivity. }
  assert (Hu1 : session_usable st1 = true).
  { rewrite E1. unfold session_usable. cbn.
    rewrite lookup_fresh_session. reflexivity. }
  assert (Hr1 : session_ready st1 = st1).
  { rewrite E1. reflexivity. }
  unfold st2. rewrite (Async_call_state server c2 st1 Hu1). rewrite Hr1.
  rewrite E1. cbn. repeat split; reflexivity.
Qed.

(** A usage scope entered by a client that holds no session releases the
    session it creates, whatever the call inside does. *)
Lemma scope_on_fresh_client_releases server c st :
  Async.session (st_self st) = None ->
  sessions (st_world (snd (Async.async_with (Async.call server c) st)))
  = (sessions (st_world st) ++ [true])%list.
Proof.
  intros Hn. unfold Async.async_with, Async.__aenter__.
  unfold bind at 1. unfold bind at 1.
  unfold Async.ClientSession at 1. cbn [st_world st_self sessions sent].
  unfold Async.set_session at 1. cbn [st_world st_self].
  set (st1 := {| st_self := _; st_world := _ |}).
  assert (Hu1 : session_usable st1 = true).
  { unfold session_usable, st1. cbn. rewrite lookup_fresh_session. reflexivity. }
  unfold finally.
  pose proof (Async_call_state server c st1 Hu1) as Hs.
  destruct (Async.call server c st1) as [r st2]. cbn [snd] in Hs. subst st2.
  unfold Async.__aexit__. rewrite bind_get_self.
  unfold st1, session_ready. cbn.
  rewrite insert_app_r_alt by reflexivity.
  replace (_ - _)%nat with 0%nat by lia. reflexivity.
Qed.

(** ** C8: the transport session of the non-blocking client *)

(** C8 at a failing input: a call made before the usage scope is entered
    creates session 0 lazily; entering the scope then creates session 1
    without looking at the one the client holds, and leaving the scope closes
    session 1 only.  Session 0 stays open after the scope exits. *)
Theorem C8_call_then_scope_leaks :
  let final := snd (call_then_scope (answers async_200_record) async_state) in
  fst (call_then_scope (answers async_200_record) async_state)
  = Return (PDict [("key", PStr "k"); ("value", PStr "v")])
  /\ map fst (sent (st_world final)) = [Some 0%nat; Some 1%nat]
  /\ Async.session (st_self final) = Some 1%nat
  /\ sessions (st_world final) = [false; true]
  /\ unreleased (st_world final) = [0%nat].
Proof. repeat split; vm_compute; reflexivity. Qed.

(** ** C9: the configuration never changes *)

(** C9: whatever the remote side answers, and whether the call returns or
    raises, each of the five operations leaves the instance of a blocking
    client exactly as it was, and leaves the base endpoint, the credential
    and the default headers of a non-blocking client as they were: only its
    [session] attribute can change. *)
Theorem C9_configuration_immutable :
  forall server aserver (c : Call)
         (st : State Sdk.HPKVClient) (pst : State Plain.HPKVClient)
         (ast : State Async.AsyncHPKVClient),
    st_self (snd (Sdk.call server c st)) = st_self st
    /\ st_self (snd (Plain.call server c pst)) = st_self pst
    /\ same_config (st_self ast) (st_self (snd (Async.call aserver c ast))).
Proof.
  intros. split; [|split].
  - rewrite Sdk_call_state. reflexivity.
  - rewrite Plain_call_state. reflexivity.
  - rewrite Async_call_self. apply session_ready_same_config.
Qed.

(** * Further properties of the clients *)

(** ** Requests of a constructed client *)

Lemma Sdk_init_returns base_url api_key w cl :
  fst (Sdk.__init__ base_url api_key w) = Return cl ->
  exists b k, base_url = Some b /\ api_key = Some k /\ k <> EmptyString
              /\ cl = {| Sdk.base_url := b; Sdk.api_key := k;
                         Sdk.headers := default_headers k |}.
Proof.
  unfold Sdk.__init__.
  destruct base_url as [b|], api_key as [k|]; cbn;
    try (destruct (String.eqb b EmptyString); discriminate);
    try discriminate.
  destruct (String.eqb b EmptyString); [discriminate|].
  destruct (String.eqb_spec k EmptyString) as [->|Hk]; [discriminate|].
  cbn. intros E. injection E as <-. eauto 10.
Qed.

Lemma Plain_init_returns base_url api_key w cl :
  fst (Plain.__init__ base_url api_key w) = Return cl ->
  exists b k, base_url = Some b /\ api_key = Some k /\ k <> EmptyString
              /\ cl = {| Plain.base_url := b; Plain.api_key := k;
                         Plain.headers := default_headers k |}.
Proof.
  unfold Plain.__init__.
  destruct base_url as [b|], api_key as [k|]; cbn;
    try (destruct (String.eqb b EmptyString); discriminate);
    try discriminate.
  destruct (String.eqb b EmptyString); [discriminate|].
  destruct (String.eqb_spec k EmptyString) as [->|Hk]; [discriminate|].
  cbn. intros E. injection E as <-. eauto 10.
Qed.

Lemma Async_init_returns base_url api_key w cl :
  fst (Async.__init__ base_url api_key w) = Return cl ->
  exists b k, base_url = Some b /\ api_key = Some k /\ k <> EmptyString
              /\ cl = {| Async.base_url := b; Async.api_key := k;
                         Async.headers := default_headers k;
                         Async.session := None |}.
Proof.
  unfold Async.__init__.
  destruct base_url as [b|], api_key as [k|]; cbn;
    try (destruct (String.eqb b EmptyString); discriminate);
    try discriminate.
  destruct (String.eqb b EmptyString); [discriminate|].
  destruct (String.eqb_spec k EmptyString) as [->|Hk]; [discriminate|].
  cbn. intros E. injection E as <-. eauto 10.
Qed.

Lemma request_of_headers base_url headers c :
  rq_headers (request_of base_url headers c) = headers.
Proof. destruct c; reflexivity. Qed.

(** X1: every request made by an instance as its constructor built it
    carries exactly two headers, Content-Type: application/json and x-api-key
    with the credential given to the constructor, in all three clients and
    for every operation. *)
Theorem requests_carry_credential :
  forall base_url api_key w server aserver (c : Call)
         (st : State Sdk.HPKVClient) (pst : State Plain.HPKVClient)
         (ast : State Async.AsyncHPKVClient),
    fst (Sdk.__init__ base_url api_key w) = Return (st_self st) ->
    fst (Plain.__init__ base_url api_key w) = Return (st_self pst) ->
    fst (Async.__init__ base_url api_key w) = Return (st_self ast) ->
    exists k rq prq arq s,
      api_key = Some k /\ k <> EmptyString
      /\ new_requests (st_world st) (st_world (snd (Sdk.call server c st)))
         = [(None, rq)]
      /\ new_requests (st_world pst) (st_world (snd (Plain.call server c pst)))
         = [(None, prq)]
      /\ new_requests (st_world ast) (st_world (snd (Async.call aserver c ast)))
         = [(Some s, arq)]
      /\ forall name,
           rq_headers rq !! name
           = (if String.eqb name "Content-Type" then Some "application/json"
              else if String.eqb name "x-api-key" then Some k
              else None)
           /\ rq_headers prq !! name = rq_headers rq !! name
           /\ rq_headers arq !! name = rq_headers rq !! name.
Proof.
  intros base_url api_key w server aserver c st pst ast Hs Hp Ha.
  destruct (Sdk_init_returns _ _ _ _ Hs) as (b & k & -> & -> & Hk & Es).
  destruct (Plain_init_returns _ _ _ _ Hp) as (b' & k' & Eb & Ek & _ & Ep).
  destruct (Async_init_returns _ _ _ _ Ha) as (b'' & k'' & Eb' & Ek' & _ & Ea).
  injection Eb as <-. injection Ek as <-.
  injection Eb' as <-. injection Ek' as <-.
  assert (Hu : session_usable ast = true).
  { unfold session_usable. rewrite Ea. reflexivity. }
  eexists k, _, _, _, _.
  split; [reflexivity|]. split; [exact Hk|].
  split; [apply Sdk_call_requests|].
  split; [apply Plain_call_requests|].
  split; [apply Async_call_requests, Hu|].
  intros name. rewrite !request_of_headers, Es, Ep, Ea. cbn.
  rewrite default_headers_lookup. repeat split; reflexivity.
Qed.

Lemma requests_carry_credential_witness :
  exists rq,
    new_requests (st_world sdk_state)
      (st_world (snd (Sdk.call (answers response_404) (CallGet "k") sdk_state)))
    = [(None, rq)]
    /\ rq_headers rq !! "x-api-key" = Some "secret".
Proof.
  destruct (requests_carry_credential (Some "https://api.hpkv.io")
              (Some "secret") empty_world (answers response_404)
              (answers chunked_500) (CallGet "k")
              sdk_state plain_state async_state eq_refl eq_refl eq_refl)
    as (k & rq & prq & arq & s & Ek & _ & Hrq & _ & _ & Hh).
  exists rq. split; [exact Hrq|].
  injection Ek as <-. exact (proj1 (Hh "x-api-key")).
Defined.

(** ** A transport that fails *)

(** X2: when the transport library raises instead of answering, the
    operation raises that very exception; it has handed exactly one request
    to the transport (no retry) and, in the blocking clients, it has not
    changed the instance. *)
Theorem transport_failure_propagates :
  forall server aserver (c : Call) e ae
         (st : State Sdk.HPKVClient) (pst : State Plain.HPKVClient)
         (ast : State Async.AsyncHPKVClient),
    server (sent (st_world st))
           (request_of (Sdk.base_url (st_self st)) (Sdk.headers (st_self st)) c)
    = Raise e ->
    server (sent (st_world pst))
           (request_of (Plain.base_url (st_self pst))
                       (Plain.headers (st_self pst)) c)
    = Raise e ->
    session_usable ast = true ->
    aserver (sent (st_world ast))
            (request_of (Async.base_url (st_self ast))
                        (Async.headers (st_self ast)) c)
    = Raise ae ->
    (fst (Sdk.call server c st) = Raise e
     /\ List.length (new_requests (st_world st)
                       (st_world (snd (Sdk.call server c st)))) = 1%nat
     /\ st_self (snd (Sdk.call server c st)) = st_self st)
    /\ (fst (Plain.call server c pst) = Raise e
        /\ List.length (new_requests (st_world pst)
                          (st_world (snd (Plain.call server c pst)))) = 1%nat
        /\ st_self (snd (Plain.call server c pst)) = st_self pst)
    /\ (fst (Async.call aserver c ast) = Raise ae
        /\ List.length (new_requests (st_world ast)
                          (st_world (snd (Async.call aserver c ast)))) = 1%nat).
Proof.
  intros server aserver c e ae st pst ast Hs Hp Hu Ha.
  repeat split.
  - rewrite Sdk_call_run. unfold bind at 1, transport_send. rewrite Hs.
    reflexivity.
  - rewrite Sdk_call_requests. reflexivity.
  - rewrite Sdk_call_state. reflexivity.
  - rewrite Plain_call_run. unfold bind at 1, transport_send. rewrite Hp.
    reflexivity.
  - rewrite Plain_call_requests. reflexivity.
  - rewrite Plain_call_state. reflexivity.
  - rewrite Async_call_run by assumption.
    unfold bind at 1, transport_send. rewrite session_ready_sent, Ha.
    reflexivity.
  - rewrite Async_call_requests by assumption. reflexivity.
Qed.

Lemma transport_failure_propagates_witness :
  fst (Sdk.call (unreachable "ConnectionError") (CallGet "k") sdk_state)
  = Raise (TransportError "ConnectionError").
Proof.
  exact (proj1 (proj1 (transport_failure_propagates
                         (unreachable "ConnectionError")
                         (unreachable "ClientConnectorError") (CallGet "k")
                         _ _ sdk_state plain_state async_state
                         eq_refl eq_refl eq_refl eq_refl))).
Defined.

(** ** A successful response that does not decode *)

Lemma Sdk_call_undecodable server c st response :
  Sdk_receives server c st response ->
  resp_ok response = true ->
  resp_json response = DecodeFails ->
  fst (Sdk.call server c st) = Raise JSONDecodeError.
Proof.
  intros Hr Hok Hj. rewrite (Sdk_call_received _ _ _ _ Hr). unfold bind at 1.
  rewrite Sdk_handle_errors_ok by assumption. rewrite Hj. reflexivity.
Qed.

Lemma Plain_call_undecodable server c st response :
  Plain_receives server c st response ->
  resp_ok response = true ->
  resp_json response = DecodeFails ->
  fst (Plain.call server c st) = Raise JSONDecodeError.
Proof.
  intros Hr Hok Hj. rewrite (Plain_call_received _ _ _ _ Hr). unfold bind at 1.
  rewrite Plain_handle_errors_ok by assumption. rewrite Hj. reflexivity.
Qed.

Lemma Async_call_undecodable server c st response :
  Async_receives server c st response ->
  cr_status response < 400 ->
  cr_json response = DecodeFails ->
  fst (Async.call server c st) = Raise JSONDecodeError.
Proof.
  intros Hr Hs Hj. rewrite (Async_call_received _ _ _ _ Hr). unfold bind at 1.
  rewrite Async_handle_errors_ok by assumption. rewrite Hj. reflexivity.
Qed.

Lemma Async_call_content_type server c st response :
  Async_receives server c st response ->
  cr_status response < 400 ->
  cr_json response = ContentTypeFails ->
  fst (Async.call server c st) = Raise ContentTypeError.
Proof.
  intros Hr Hs Hj. rewrite (Async_call_received _ _ _ _ Hr). unfold bind at 1.
  rewrite Async_handle_errors_ok by assumption. rewrite Hj. reflexivity.
Qed.

(** X3: when a response passes the status check but [response.json()]
    fails, every operation of every client lets that failure escape and
    raises no [HPKVException] of any class (the SDK's invalid-format error
    included): the caller of a blocking client gets [JSONDecodeError]; the
    caller of the non-blocking client gets [JSONDecodeError] when the body
    is announced as JSON and does not decode, and the [ContentTypeError] of
    aiohttp when the Content-Type is not a JSON type. *)
Theorem undecodable_success_body :
  forall server aserver (c : Call)
         (st : State Sdk.HPKVClient) (pst : State Plain.HPKVClient)
         (ast : State Async.AsyncHPKVClient)
         (response : Response) (cresponse : ClientResponse),
    Sdk_receives server c st response ->
    Plain_receives server c pst response ->
    Async_receives aserver c ast cresponse ->
    resp_ok response = true ->
    resp_json response = DecodeFails ->
    cr_status cresponse < 400 ->
    fst (Sdk.call server c st) = Raise JSONDecodeError
    /\ fst (Plain.call server c pst) = Raise JSONDecodeError
    /\ (cr_json cresponse = DecodeFails ->
        fst (Async.call aserver c ast) = Raise JSONDecodeError)
    /\ (cr_json cresponse = ContentTypeFails ->
        fst (Async.call aserver c ast) = Raise ContentTypeError).
Proof.
  intros server aserver c st pst ast response cresponse
         Hr Hpr Har Hok Hj Hs.
  repeat split.
  - apply (Sdk_call_undecodable _ _ _ _ Hr); assumption.
  - apply (Plain_call_undecodable _ _ _ _ Hpr); assumption.
  - intros Hcj. apply (Async_call_undecodable _ _ _ _ Har); assumption.
  - intros Hcj. apply (Async_call_content_type _ _ _ _ Har); assumption.
Qed.

Lemma undecodable_success_body_witness :
  fst (Sdk.call (answers response_200_html) (CallGet "k") sdk_state)
  = Raise JSONDecodeError
  /\ fst (Async.call (answers async_200_html) (CallGet "k") async_state)
     = Raise ContentTypeError.
Proof.
  pose proof (undecodable_success_body (answers response_200_html)
                (answers async_200_html)
                (CallGet "k") sdk_state plain_state async_state _ _
                eq_refl eq_refl (conj eq_refl eq_refl) eq_refl eq_refl
                ltac:(vm_compute; reflexivity)) as (Hs & _ & _ & Ha).
  split; [exact Hs | exact (Ha eq_refl)].
Defined.

(** ** The complete outcome on a failing response *)

Lemma derive_message_unsafe {S} status error_data (k : pyval -> Py S unit) st :
  lookup_safe error_data = false ->
  bind (if py_truthy error_data then lift (py_in "error" error_data)
        else ret false)
       (fun has_error =>
          bind (if has_error then lift (py_getitem error_data "error")
                else ret (PStr ("HTTP error " ++ py_str_int status)))
               k) st
  = (Raise TypeError, st).
Proof.
  intros Hb. destruct error_data as [|b|n|s|l|d]; cbn in Hb; try discriminate.
  - destruct b; [reflexivity | discriminate].
  - cbn [py_truthy]. destruct (negb (n =? 0)); [reflexivity | discriminate].
  - cbn [py_truthy py_in]. unfold bind, lift, ret.
    destruct (substringb "error" s) eqn:E; [|discriminate].
    destruct s as [|c s]; [discriminate E | reflexivity].
  - cbn [py_truthy py_in]. unfold bind, lift, ret.
    destruct l as [|x l]; [discriminate|].
    destruct (existsb _ (x :: l)); [reflexivity | discriminate].
Qed.

Lemma Sdk_handle_errors_unsafe response st :
  resp_ok response = false ->
  lookup_safe (error_body response) = false ->
  Sdk._handle_errors response st = (Raise TypeError, st).
Proof.
  intros Hok Hb. unfold Sdk._handle_errors. rewrite Hok. cbn [negb].
  apply derive_message_unsafe, Hb.
Qed.

Lemma Plain_handle_errors_unsafe response st :
  resp_ok response = false ->
  lookup_safe (error_body response) = false ->
  Plain._handle_errors response st = (Raise TypeError, st).
Proof.
  intros Hok Hb. unfold Plain._handle_errors. rewrite Hok. cbn [negb].
  apply derive_message_unsafe, Hb.
Qed.

Lemma Async_handle_errors_unsafe response data st :
  400 <= cr_status response ->
  decode_error_body_async response = Return data ->
  lookup_safe data = false ->
  Async._handle_errors response st = (Raise TypeError, st).
Proof.
  intros Hs Hd Hb. unfold Async._handle_errors.
  destruct (cr_status response >=? 400) eqn:E; [|lia].
  rewrite Hd. unfold bind at 1, lift at 1.
  apply derive_message_unsafe, Hb.
Qed.

Lemma Async_handle_errors_escapes response e st :
  400 <= cr_status response ->
  decode_error_body_async response = Raise e ->
  Async._handle_errors response st = (Raise e, st).
Proof.
  intros Hs Hd. unfold Async._handle_errors.
  destruct (cr_status response >=? 400) eqn:E; [|lia].
  rewrite Hd. reflexivity.
Qed.

Lemma Sdk_call_outcome_failing server c st response :
  Sdk_receives server c st response ->
  resp_ok response = false ->
  fst (Sdk.call server c st)
  = if lookup_safe (error_body response)
    then Raise (HPKVError (variant_of_status (resp_status_code response))
                          (error_message (resp_status_code response)
                                         (error_body response))
                          (resp_status_code response) (error_body response))
    else Raise TypeError.
Proof.
  intros Hr Hok. destruct (lookup_safe (error_body response)) eqn:Hb.
  - apply Sdk_call_failing; assumption.
  - rewrite (Sdk_call_received _ _ _ _ Hr). unfold bind at 1.
    rewrite Sdk_handle_errors_unsafe by assumption. reflexivity.
Qed.

Lemma Plain_call_outcome_failing server c st response :
  Plain_receives server c st response ->
  resp_ok response = false ->
  fst (Plain.call server c st)
  = if lookup_safe (error_body response)
    then Raise (HPKVError HPKVException
                          (error_message (resp_status_code response)
                                         (error_body response))
                          (resp_status_code response) (error_body response))
    else Raise TypeError.
Proof.
  intros Hr Hok. destruct (lookup_safe (error_body response)) eqn:Hb.
  - apply Plain_call_failing; assumption.
  - rewrite (Plain_call_received _ _ _ _ Hr). unfold bind at 1.
    rewrite Plain_handle_errors_unsafe by assumption. reflexivity.
Qed.

Lemma Async_call_outcome_failing server c st response :
  Async_receives server c st response ->
  400 <= cr_status response ->
  fst (Async.call server c st)
  = match decode_error_body_async response with
    | Raise e => Raise e
    | Return data =>
        if lookup_safe data
        then Raise (HPKVError HPKVException
                              (error_message (cr_status response) data)
                              (cr_status response) data)
        else Raise TypeError
    end.
Proof.
  intros Hr Hs.
  destruct (decode_error_body_async response) as [data|e] eqn:Hd.
  - destruct (lookup_safe data) eqn:Hb.
    + apply (Async_call_failing server c st response data); assumption.
    + rewrite (Async_call_received _ _ _ _ Hr). unfold bind at 1.
      rewrite (Async_handle_errors_unsafe response data) by assumption.
      reflexivity.
  - rewrite (Async_call_received _ _ _ _ Hr). unfold bind at 1.
    rewrite (Async_handle_errors_escapes response e) by assumption.
    reflexivity.
Qed.

(** X4: on a failing response an operation never returns and never reaches
    the decoding or validation of the body as a result, and its outcome does
    not depend on the operation.  A blocking client raises the API exception
    built by the error handler when the lookup of the error field in the
    decoded error body is well defined, and [TypeError] in every other case
    (a body that is a non-zero number, [true], a string containing "error"
    or an array with the element "error").  The non-blocking client does the
    same with the body it decodes, and raises the [ContentTypeError] of
    aiohttp instead when the content length is positive and the Content-Type
    is not a JSON type. *)
Theorem failing_response_outcome :
  forall server aserver (c : Call)
         (st : State Sdk.HPKVClient) (pst : State Plain.HPKVClient)
         (ast : State Async.AsyncHPKVClient)
         (response : Response) (cresponse : ClientResponse),
    Sdk_receives server c st response ->
    Plain_receives server c pst response ->
    Async_receives aserver c ast cresponse ->
    resp_ok response = false ->
    400 <= cr_status cresponse ->
    fst (Sdk.call server c st)
    = (if lookup_safe (error_body response)
       then Raise (HPKVError (variant_of_status (resp_status_code response))
                             (error_message (resp_status_code response)
                                            (error_body response))
                             (resp_status_code response) (error_body response))
       else Raise TypeError)
    /\ fst (Plain.call server c pst)
       = (if lookup_safe (error_body response)
          then Raise (HPKVError HPKVException
                                (error_message (resp_status_code response)
                                               (error_body response))
                                (resp_status_code response)
                                (error_body response))
          else Raise TypeError)
    /\ fst (Async.call aserver c ast)
       = match decode_error_body_async cresponse with
         | Raise e => Raise e
         | Return data =>
             if lookup_safe data
             then Raise (HPKVError HPKVException
                                   (error_message (cr_status cresponse) data)
                                   (cr_status cresponse) data)
             else Raise TypeError
         end
    /\ (forall n, cr_content_length cresponse = Some n -> 0 < n ->
                  cr_json cresponse = ContentTypeFails ->
                  fst (Async.call aserver c ast) = Raise ContentTypeError)
    /\ (forall v, fst (Sdk.call server c st) <> Return v
                  /\ fst (Plain.call server c pst) <> Return v
                  /\ fst (Async.call aserver c ast) <> Return v).
Proof.
  intros server aserver c st pst ast response cresponse Hr Hpr Har Hok Hs.
  pose proof (Sdk_call_outcome_failing _ _ _ _ Hr Hok) as E1.
  pose proof (Plain_call_outcome_failing _ _ _ _ Hpr Hok) as E2.
  pose proof (Async_call_outcome_failing _ _ _ _ Har Hs) as E3.
  split; [exact E1|]. split; [exact E2|]. split; [exact E3|]. split.
  - intros n En Hn Hj. rewrite E3. unfold decode_error_body_async.
    rewrite En, Hj.
    destruct (Z.eqb_spec n 0); [lia|].
    destruct (Z.gtb_spec n 0); [reflexivity | lia].
  - intros v. rewrite E1, E2, E3.
    destruct (lookup_safe (error_body response)),
             (decode_error_body_async cresponse) as [data|e];
      try destruct (lookup_safe data);
      repeat split; discriminate.
Qed.

Lemma failing_response_outcome_witness :
  fst (Plain.call (answers response_500_number) (CallDelete "k") plain_state)
  = Raise TypeError
  /\ fst (Async.call (answers async_502_html) (CallDelete "k") async_state)
     = Raise ContentTypeError.
Proof.
  pose proof (failing_response_outcome (answers response_500_number)
                (answers async_502_html) (CallDelete "k")
                sdk_state plain_state async_state
                response_500_number async_502_html
                eq_refl eq_refl (conj eq_refl eq_refl) eq_refl
                ltac:(vm_compute; discriminate)) as (_ & Hp & _ & Ha & _).
  split; [exact Hp | exact (Ha 13 eq_refl ltac:(vm_compute; reflexivity) eq_refl)].
Defined.

(** ** The SDK client against the plain blocking client *)

(** X5: given the same response to the same call, the plain blocking client
    raises on a failing response what the SDK client raises with the
    exception class replaced by the base class (same message, status and
    body); on a successful response, whatever the SDK client returns the
    plain client returns too, and whenever the plain client raises the SDK
    client raises the same exception. *)
Theorem plain_forgets_class :
  forall server pserver (c : Call)
         (st : State Sdk.HPKVClient) (pst : State Plain.HPKVClient)
         (response : Response),
    Sdk_receives server c st response ->
    Plain_receives pserver c pst response ->
    (resp_ok response = false ->
     fst (Plain.call pserver c pst) = forget_class (fst (Sdk.call server c st)))
    /\ (resp_ok response = true ->
        (forall v, fst (Sdk.call server c st) = Return v ->
                   fst (Plain.call pserver c pst) = Return v)
        /\ (forall e, fst (Plain.call pserver c pst) = Raise e ->
                      fst (Sdk.call server c st) = Raise e)).
Proof.
  intros server pserver c st pst response Hr Hpr. split.
  - intros Hok.
    rewrite (Sdk_call_outcome_failing _ _ _ _ Hr Hok).
    rewrite (Plain_call_outcome_failing _ _ _ _ Hpr Hok).
    destruct (lookup_safe (error_body response)); reflexivity.
  - intros Hok. destruct (resp_json response) as [v|] eqn:Hj.
    + rewrite (Sdk_call_success _ _ _ _ _ Hr Hok Hj).
      rewrite (Plain_call_success _ _ _ _ _ Hpr Hok Hj).
      split; [|discriminate].
      intros v'. destruct (well_shaped c v); [auto | discriminate].
    + rewrite (Sdk_call_undecodable _ _ _ _ Hr Hok Hj).
      rewrite (Plain_call_undecodable _ _ _ _ Hpr Hok Hj).
      split; [discriminate | auto].
Qed.

Lemma plain_forgets_class_witness :
  fst (Plain.call (answers response_404) (CallGet "k") plain_state)
  = forget_class (fst (Sdk.call (answers response_404) (CallGet "k") sdk_state)).
Proof.
  exact (proj1 (plain_forgets_class (answers response_404)
                  (answers response_404) (CallGet "k") sdk_state plain_state
                  response_404 eq_refl eq_refl) eq_refl).
Defined.

(** ** What the SDK validation looks at *)

Lemma dict_has_keys key d :
  dict_has key d = existsb (fun k => String.eqb k key) (keys_of d).
Proof.
  unfold dict_has, keys_of. induction d as [|[k v] d IH]; [reflexivity|].
  cbn. rewrite IH. reflexivity.
Qed.

Lemma well_shaped_keys c d d' :
  keys_of d = keys_of d' ->
  well_shaped c (PDict d) = well_shaped c (PDict d').
Proof.
  intros E. unfold well_shaped. cbn [is_dict andb].
  assert (Hk : forall k, has_key k (PDict d) = has_key k (PDict d')).
  { intros k. cbn [has_key]. rewrite !dict_has_keys, E. reflexivity. }
  induction (required_fields c) as [|k ks IH]; [reflexivity|].
  change (has_key k (PDict d) && forallb (fun k => has_key k (PDict d)) ks
          = has_key k (PDict d') && forallb (fun k => has_key k (PDict d')) ks).
  rewrite Hk, IH. reflexivity.
Qed.

(** X6: the response validation of the SDK client reads the names of the
    fields only, never their values: two successful responses whose bodies
    are objects with the same field names are both returned to the caller or
    both rejected, so a body whose required fields hold values of the wrong
    type is accepted and returned as it is; a decoded body that is not an
    object is always rejected. *)
Theorem validation_reads_field_names_only :
  forall server server' (c : Call) (st : State Sdk.HPKVClient)
         (response response' : Response) d d',
    Sdk_receives server c st response ->
    Sdk_receives server' c st response' ->
    resp_ok response = true ->
    resp_ok response' = true ->
    resp_json response = Decoded (PDict d) ->
    resp_json response' = Decoded (PDict d') ->
    keys_of d = keys_of d' ->
    (fst (Sdk.call server c st) = Return (PDict d)
     <-> fst (Sdk.call server' c st) = Return (PDict d'))
    /\ (forall server'' response'' v,
          Sdk_receives server'' c st response'' ->
          resp_ok response'' = true ->
          resp_json response'' = Decoded v ->
          is_dict v = false ->
          fst (Sdk.call server'' c st)
          = Raise (HPKVError HPKVInternalError
                             (PStr "Invalid response format from server")
                             (resp_status_code response'') v)).
Proof.
  intros server server' c st response response' d d'
         Hr Hr' Hok Hok' Hj Hj' Hk.
  split.
  - rewrite (Sdk_call_success _ _ _ _ _ Hr Hok Hj).
    rewrite (Sdk_call_success _ _ _ _ _ Hr' Hok' Hj').
    rewrite (well_shaped_keys c d d' Hk).
    destruct (well_shaped c (PDict d')); split; intros H;
      first [reflexivity | discriminate H].
  - intros server'' response'' v Hr'' Hok'' Hj'' Hd.
    rewrite (Sdk_call_success _ _ _ _ _ Hr'' Hok'' Hj'').
    unfold well_shaped. rewrite Hd. reflexivity.
Qed.

Lemma validation_reads_field_names_only_witness :
  fst (Sdk.call (answers response_200_wrong_type) (CallDelete "k") sdk_state)
  = Return (PDict [("success", PStr "no")]).
Proof.
  apply (proj1 (proj1 (validation_reads_field_names_only
                         (answers response_200_success)
                         (answers response_200_wrong_type) (CallDelete "k")
                         sdk_state response_200_success
                         response_200_wrong_type _ _
                         eq_refl eq_refl eq_refl eq_refl eq_refl eq_refl
                         eq_refl))).
  vm_compute. reflexivity.
Defined.

(** ** The wire form of a value *)

(** X7: a set call cannot tell a structured value from its JSON text: for
    every value, [set(key, value)] hands the transport the same request as
    [set(key, text)] where [text] is the wire form of the value (the value
    itself for a string, its JSON encoding otherwise), in all three
    clients. *)
Theorem set_value_collapses :
  forall server aserver key value partial_update
         (st : State Sdk.HPKVClient) (pst : State Plain.HPKVClient)
         (ast : State Async.AsyncHPKVClient),
    session_usable ast = true ->
    new_requests (st_world st)
      (st_world (snd (Sdk.set server key value partial_update st)))
    = new_requests (st_world st)
        (st_world (snd (Sdk.set server key (PStr (wire_value value))
                          partial_update st)))
    /\ new_requests (st_world pst)
         (st_world (snd (Plain.set server key value partial_update pst)))
       = new_requests (st_world pst)
           (st_world (snd (Plain.set server key (PStr (wire_value value))
                             partial_update pst)))
    /\ new_requests (st_world ast)
         (st_world (snd (Async.set aserver key value partial_update ast)))
       = new_requests (st_world ast)
           (st_world (snd (Async.set aserver key (PStr (wire_value value))
                             partial_update ast))).
Proof.
  intros server aserver key value partial_update st pst ast Hu.
  split; [|split].
  - etransitivity;
      [ exact (Sdk_call_requests server (CallSet key value partial_update) st)
      | symmetry;
        exact (Sdk_call_requests server
                 (CallSet key (PStr (wire_value value)) partial_update) st) ].
  - etransitivity;
      [ exact (Plain_call_requests server (CallSet key value partial_update) pst)
      | symmetry;
        exact (Plain_call_requests server
                 (CallSet key (PStr (wire_value value)) partial_update) pst) ].
  - etransitivity;
      [ exact (Async_call_requests aserver (CallSet key value partial_update)
                 ast Hu)
      | symmetry;
        exact (Async_call_requests aserver
                 (CallSet key (PStr (wire_value value)) partial_update) ast Hu) ].
Qed.

Lemma set_value_collapses_witness :
  new_requests (st_world async_state)
    (st_world (snd (Async.set (answers async_200_record) "k"
                      (PList [PInt 1; PNone]) false async_state)))
  = new_requests (st_world async_state)
      (st_world (snd (Async.set (answers async_200_record) "k"
                        (PStr "[1, null]") false async_state))).
Proof.
  exact (proj2 (proj2 (set_value_collapses (answers response_200_success)
                         (answers async_200_record) "k"
                         (PList [PInt 1; PNone]) false
                         sdk_state plain_state async_state eq_refl))).
Defined.

(** ** The usage scope of the non-blocking client *)

(** The state a usage scope around one call ends in: a new session was
    created at entry, the call went through it, and it was closed at exit. *)
Lemma scope_state server c st :
  snd (Async.async_with (Async.call server c) st)
  = {| st_self := Async.with_session
                    (Some (List.length (sessions (st_world st)))) (st_self st);
       st_world :=
         {| sent := (sent (st_world st)
                     ++ [(Some (List.length (sessions (st_world st))),
                          request_of (Async.base_url (st_self st))
                                     (Async.headers (st_self st)) c)])%list;
            sessions := (sessions (st_world st) ++ [true])%list |} |}.
Proof.
  unfold Async.async_with, Async.__aenter__.
  unfold bind at 1. unfold bind at 1.
  unfold Async.ClientSession at 1. cbn [st_world st_self sessions sent].
  unfold Async.set_session at 1. cbn [st_world st_self].
  set (st1 := {| st_self := _; st_world := _ |}).
  assert (Hu1 : session_usable st1 = true).
  { unfold session_usable, st1. cbn. rewrite lookup_fresh_session. reflexivity. }
  unfold finally.
  pose proof (Async_call_state server c st1 Hu1) as Hs.
  destruct (Async.call server c st1) as [r st2]. cbn [snd] in Hs. subst st2.
  unfold Async.__aexit__. rewrite bind_get_self.
  unfold st1, session_ready, next_session, log_request. cbn.
  rewrite insert_app_r_alt by reflexivity.
  replace (_ - _)%nat with 0%nat by lia. reflexivity.
Qed.

(** X11: a usage scope around a call always creates a session of its own,
    sends the call through it and closes it when the scope is left, whether
    the call returned or raised; it touches no session that existed before,
    and the client still refers to the closed session afterwards. *)
Theorem scope_uses_and_closes_own_session :
  forall server (c : Call) (st : State Async.AsyncHPKVClient),
    let n := List.length (sessions (st_world st)) in
    let final := snd (Async.async_with (Async.call server c) st) in
    sessions (st_world final) = (sessions (st_world st) ++ [true])%list
    /\ (forall s, (s < n)%nat ->
                  sessions (st_world final) !! s = sessions (st_world st) !! s)
    /\ Async.session (st_self final) = Some n
    /\ exists rq,
         new_requests (st_world st) (st_world final) = [(Some n, rq)]
         /\ key_transmitted (Async.base_url (st_self st)) c rq.
Proof.
  intros server c st n final. unfold final. rewrite scope_state.
  cbn [st_world st_self sessions Async.session Async.with_session].
  split; [reflexivity|]. split; [|split; [reflexivity|]].
  - intros s Hs. apply lookup_app_l. exact Hs.
  - eexists. split; [|apply request_of_key].
    unfold new_requests. cbn [sent]. rewrite drop_app_length. reflexivity.
Qed.

Lemma scope_uses_and_closes_own_session_witness :
  sessions (st_world (snd (Async.async_with
                             (Async.call (answers chunked_500) (CallGet "k"))
                             async_state_in_session))) !! 0%nat
  = Some false
  /\ sessions (st_world (snd (Async.async_with
                                (Async.call (answers chunked_500) (CallGet "k"))
                                async_state_in_session)))
     = [false; true].
Proof.
  pose proof (scope_uses_and_closes_own_session (answers chunked_500)
                (CallGet "k") async_state_in_session) as (Hs & Hold & _).
  split; [exact (Hold 0%nat ltac:(vm_compute; lia)) | exact Hs].
Defined.

(** X12: a session the client holds open when it enters a usage scope is
    not reused and not closed: after the scope it is still open, and the
    client refers to another session, so nothing in the client can release
    it any more.  This is the case of a call made before the scope and of a
    scope entered twice. *)
Theorem scope_orphans_held_session :
  forall server (c : Call) (st : State Async.AsyncHPKVClient) (s : nat),
    Async.session (st_self st) = Some s ->
    sessions (st_world st) !! s = Some false ->
    let final := snd (Async.async_with (Async.call server c) st) in
    sessions (st_world final) !! s = Some false
    /\ Async.session (st_self final) <> Some s
    /\ s ∈ unreleased (st_world final).
Proof.
  intros server c st s Hs Hopen final.
  pose proof (lookup_lt_Some _ _ _ Hopen) as Hlt.
  assert (Hf : sessions (st_world final) !! s = Some false).
  { unfold final. rewrite scope_state. cbn [st_world sessions].
    apply lookup_app_l_Some, Hopen. }
  split; [exact Hf|]. split.
  - unfold final. rewrite scope_state.
    cbn [st_self Async.session Async.with_session].
    intros E. injection E as E. lia.
  - unfold unreleased. apply list_elem_of_filter. split; [exact Hf|].
    apply elem_of_seq. pose proof (lookup_lt_Some _ _ _ Hf). lia.
Qed.

Lemma scope_orphans_held_session_witness :
  sessions (st_world (snd (Async.async_with
                             (Async.call (answers async_200_record)
                                         (CallGet "k"))
                             async_state_in_session))) !! 0%nat
  = Some false.
Proof.
  exact (proj1 (scope_orphans_held_session (answers async_200_record)
                  (CallGet "k") async_state_in_session 0%nat
                  eq_refl eq_refl)).
Defined.

(** X13: leaving the usage scope does not reset the session attribute:
    after the scope, [_get_session] hands back the session the scope closed
    and creates no new one, so the client does not recover a usable
    session by itself. *)
Theorem closed_session_is_kept :
  forall server (c : Call) (st : State Async.AsyncHPKVClient),
    let n := List.length (sessions (st_world st)) in
    let final := snd (Async.async_with (Async.call server c) st) in
    Async._get_session final = (Return n, final)
    /\ sessions (st_world final) !! n = Some true
    /\ session_usable final = false.
Proof.
  intros server c st n final.
  assert (Hc : sessions (st_world final) !! n = Some true).
  { unfold final, n. rewrite scope_state. cbn [st_world sessions].
    rewrite lookup_app_r by reflexivity.
    replace (_ - _)%nat with 0%nat by lia. reflexivity. }
  assert (Hs : Async.session (st_self final) = Some n).
  { unfold final, n. rewrite scope_state. reflexivity. }
  split; [|split; [exact Hc|]].
  - rewrite get_session_run. unfold next_session, session_ready.
    rewrite Hs. reflexivity.
  - unfold session_usable. rewrite Hs, Hc. reflexivity.
Qed.

(** ** Calls made one after another *)

Lemma Sdk_after_state server calls st :
  Sdk_after server calls st
  = {| st_self := st_self st;
       st_world :=
         {| sent := (sent (st_world st)
                     ++ map (fun c => (None,
                                       request_of (Sdk.base_url (st_self st))
                                                  (Sdk.headers (st_self st)) c))
                            calls)%list;
            sessions := sessions (st_world st) |} |}.
Proof.
  revert st. induction calls as [|c calls IH]; intros st.
  - cbn. rewrite app_nil_r. destruct st as [self [s ss]]. reflexivity.
  - cbn [Sdk_after]. rewrite IH, Sdk_call_state.
    cbn [st_self st_world log_request sent sessions map].
    rewrite <- app_assoc. reflexivity.
Qed.

Lemma Plain_after_state server calls st :
  Plain_after server calls st
  = {| st_self := st_self st;
       st_world :=
         {| sent := (sent (st_world st)
                     ++ map (fun c => (None,
                                       request_of (Plain.base_url (st_self st))
                                                  (Plain.headers (st_self st)) c))
                            calls)%list;
            sessions := sessions (st_world st) |} |}.
Proof.
  revert st. induction calls as [|c calls IH]; intros st.
  - cbn. rewrite app_nil_r. destruct st as [self [s ss]]. reflexivity.
  - cbn [Plain_after]. rewrite IH, Plain_call_state.
    cbn [st_self st_world log_request sent sessions map].
    rewrite <- app_assoc. reflexivity.
Qed.

(** X14: however many calls a caller makes on a blocking client and
    whatever each of them returns or raises, the client hands the transport
    exactly one request per call, in the order of the calls and each built
    from the call alone (no retry, no batching, no caching, no request
    skipped after an error), and the instance stays what it was. *)
Theorem blocking_calls_one_request_each :
  forall server (calls : list Call)
         (st : State Sdk.HPKVClient) (pst : State Plain.HPKVClient),
    (st_self (Sdk_after server calls st) = st_self st
     /\ new_requests (st_world st) (st_world (Sdk_after server calls st))
        = map (fun c => (None, request_of (Sdk.base_url (st_self st))
                                          (Sdk.headers (st_self st)) c)) calls)
    /\ (st_self (Plain_after server calls pst) = st_self pst
        /\ new_requests (st_world pst) (st_world (Plain_after server calls pst))
           = map (fun c => (None, request_of (Plain.base_url (st_self pst))
                                             (Plain.headers (st_self pst)) c))
                 calls).
Proof.
  intros server calls st pst.
  rewrite Sdk_after_state, Plain_after_state. unfold new_requests.
  cbn [st_self st_world sent]. rewrite !drop_app_length.
  repeat split; reflexivity.
Qed.

Lemma Async_after_state server calls st :
  session_usable st = true ->
  calls <> [] ->
  Async_after server calls st
  = {| st_self := st_self (session_ready st);
       st_world :=
         {| sent := (sent (st_world st)
                     ++ map (fun c => (Some (next_session st),
                                       request_of (Async.base_url (st_self st))
                                                  (Async.headers (st_self st)) c))
                            calls)%list;
            sessions := sessions (st_world (session_ready st)) |} |}.
Proof.
  revert st. induction calls as [|c calls IH]; intros st Hu Hne;
    [congruence|].
  cbn [Async_after].
  pose proof (Async_call_state server c st Hu) as E.
  set (st1 := snd (Async.call server c st)) in *.
  assert (Hs1 : Async.session (st_self st1) = Some (next_session st)).
  { rewrite E. unfold session_ready, next_session.
    destruct (Async.session (st_self st)) eqn:Es; cbn; [exact Es | reflexivity]. }
  assert (Hu1 : session_usable st1 = true).
  { unfold session_usable. rewrite Hs1. rewrite E at 1.
    cbn [st_world log_request sessions].
    rewrite (session_ready_open st Hu). reflexivity. }
  assert (Hr1 : session_ready st1 = st1).
  { unfold session_ready. rewrite Hs1. reflexivity. }
  assert (Hn1 : next_session st1 = next_session st).
  { unfold next_session at 1. rewrite Hs1. reflexivity. }
  assert (Hb : Async.base_url (st_self st1) = Async.base_url (st_self st)
               /\ Async.headers (st_self st1) = Async.headers (st_self st)).
  { rewrite E. cbn [st_self]. unfold session_ready.
    destruct (Async.session (st_self st)); split; reflexivity. }
  destruct Hb as [Hb Hh].
  destruct calls as [|c' calls].
  - cbn [Async_after map]. rewrite E. unfold log_request.
    rewrite session_ready_sent. reflexivity.
  - rewrite (IH st1 Hu1) by discriminate.
    rewrite Hr1, Hn1, Hb, Hh. rewrite E.
    cbn [st_self st_world log_request sent sessions map].
    rewrite session_ready_sent, <- app_assoc. reflexivity.
Qed.

(** X15: a non-blocking client that makes any number of calls outside a
    usage scope creates at most one session: all the calls go through the
    session it held or through the single session the first call created,
    one request per call and in order, and the client holds that session
    afterwards.  Nothing in these calls closes it. *)
Theorem async_calls_share_one_session :
  forall server (calls : list Call) (st : State Async.AsyncHPKVClient),
    session_usable st = true ->
    calls <> [] ->
    let final := Async_after server calls st in
    new_requests (st_world st) (st_world final)
    = map (fun c => (Some (next_session st),
                     request_of (Async.base_url (st_self st))
                                (Async.headers (st_self st)) c)) calls
    /\ Async.session (st_self final) = Some (next_session st)
    /\ sessions (st_world final) !! next_session st = Some false
    /\ (List.length (sessions (st_world final))
        <= S (List.length (sessions (st_world st))))%nat.
Proof.
  intros server calls st Hu Hne final. unfold final.
  rewrite (Async_after_state server calls st Hu Hne).
  cbn [st_self st_world sent sessions].
  split; [|split; [|split]].
  - unfold new_requests. cbn [sent]. rewrite drop_app_length. reflexivity.
  - unfold session_ready, next_session.
    destruct (Async.session (st_self st)) eqn:Es; cbn; [exact Es | reflexivity].
  - apply session_ready_open, Hu.
  - unfold session_ready. destruct (Async.session (st_self st)); cbn.
    + lia.
    + rewrite length_app. cbn. lia.
Qed.

Lemma async_calls_share_one_session_witness :
  map fst (new_requests (st_world async_state)
             (st_world (Async_after (answers chunked_500)
                          [CallGet "a"; CallDelete "b"; CallGet "c"]
                          async_state)))
  = [Some 0%nat; Some 0%nat; Some 0%nat].
Proof.
  exact (f_equal (map fst)
           (proj1 (async_calls_share_one_session (answers chunked_500)
                     [CallGet "a"; CallDelete "b"; CallGet "c"] async_state
                     eq_refl ltac:(discriminate)))).
Defined.
